(** * Emotion journal backend: entry pipeline and account security

    A shallow embedding of [backend/main.py]: the signup / login / token
    gate, the entry pipeline ([process_entry_logic], [analyze_text],
    [analyze_audio]) and the history endpoint ([get_history]).

    The database is a pair of tables kept in insertion order, the file
    system a list of named files; both are threaded through a small
    state-and-exception monad.  The classifier, the transcriber, the cipher,
    the password hash and the HMAC are collaborators taken through a class. *)

From Stdlib Require Import ZArith QArith List String Ascii Bool Lia.
From Stdlib Require Import Permutation Sorted DecimalString Qround.
Import ListNotations.
Local Open Scope string_scope.
Local Open Scope Z_scope.

(** ** Python values used by the program *)

(** The exception classes the program raises or can meet. *)
Inductive exn : Type :=
| HTTPException (status_code : Z) (detail : string)
| ValueError (msg : string)
| OverflowError (msg : string)
| OSError (msg : string)
| JWTError (msg : string)
| RuntimeError (msg : string)
| RequestValidationError (missing : list string).

Definition str_of_int (z : Z) : string := NilZero.string_of_int (Z.to_int z).

(** [str(e)]: Starlette's [HTTPException.__str__] gives "status: detail";
    the built-in exceptions give their message.  A [RequestValidationError]
    is raised by the framework before the body of a route runs, never
    inside one: the names of the missing fields stand for its text. *)
Definition str_exn (e : exn) : string :=
  match e with
  | HTTPException c d => str_of_int c ++ ": " ++ d
  | ValueError m | OverflowError m | OSError m | JWTError m
  | RuntimeError m => m
  | RequestValidationError missing => String.concat ", " missing
  end.

(** An HTTP status in the 4xx class; FastAPI answers a
    [RequestValidationError] with 422. *)
Definition is_client_error (e : exn) : bool :=
  match e with
  | HTTPException c _ => (400 <=? c) && (c <? 500)
  | RequestValidationError _ => true
  | _ => false
  end.

(** [str.isspace] on the ASCII range. *)
Definition isspace (c : ascii) : bool :=
  let n := Z.of_nat (nat_of_ascii c) in
  ((9 <=? n) && (n <=? 13)) || ((28 <=? n) && (n <=? 32)).

(** The whitespace characters beyond ASCII, as their UTF-8 bytes: U+0085
    and U+00A0 take two, *)
Definition isspace2 (c1 c2 : ascii) : bool :=
  let n1 := Z.of_nat (nat_of_ascii c1) in
  let n2 := Z.of_nat (nat_of_ascii c2) in
  (n1 =? 194) && ((n2 =? 133) || (n2 =? 160)).

(** and U+1680, U+2000 to U+200A, U+2028, U+2029, U+202F, U+205F and U+3000
    take three. *)
Definition isspace3 (c1 c2 c3 : ascii) : bool :=
  let n1 := Z.of_nat (nat_of_ascii c1) in
  let n2 := Z.of_nat (nat_of_ascii c2) in
  let n3 := Z.of_nat (nat_of_ascii c3) in
  ((n1 =? 225) && (n2 =? 154) && (n3 =? 128))
  || ((n1 =? 226) && (n2 =? 128)
      && (((128 <=? n3) && (n3 <=? 138)) || (n3 =? 168) || (n3 =? 169)
          || (n3 =? 175)))
  || ((n1 =? 226) && (n2 =? 129) && (n3 =? 159))
  || ((n1 =? 227) && (n2 =? 128) && (n3 =? 128)).

(** [str.lstrip()]: whitespace characters are dropped from the front, one
    character (of one, two or three bytes) at a time. *)
Fixpoint lstrip (s : string) : string :=
  match s with
  | EmptyString => EmptyString
  | String c1 s1 =>
      if isspace c1 then lstrip s1
      else
        match s1 with
        | EmptyString => s
        | String c2 s2 =>
            if isspace2 c1 c2 then lstrip s2
            else
              match s2 with
              | EmptyString => s
              | String c3 s3 => if isspace3 c1 c2 c3 then lstrip s3 else s
              end
        end
  end.

(** [str.rstrip()]: the longest suffix made of whitespace characters only
    is dropped. *)
Fixpoint rstrip (s : string) : string :=
  match s with
  | EmptyString => EmptyString
  | String c s' =>
      match lstrip s with
      | EmptyString => EmptyString
      | _ => String c (rstrip s')
      end
  end.

Definition strip (s : string) : string := rstrip (lstrip s).

(** Python truthiness of a string. *)
Definition truthy (s : string) : bool :=
  match s with EmptyString => false | _ => true end.

(** [a or b] on strings. *)
Definition str_or (a b : string) : string := if truthy a then a else b.

(** [str.rfind] for a one-character needle; -1 when absent. *)
Fixpoint rfind_from (c : ascii) (s : string) (i : Z) (last : Z) : Z :=
  match s with
  | EmptyString => last
  | String d s' => rfind_from c s' (i + 1) (if Ascii.eqb d c then i else last)
  end.

Definition rfind (c : ascii) (s : string) : Z := rfind_from c s 0 (-1).

Definition char_at (s : string) (i : Z) : option ascii :=
  if i <? 0 then None else String.get (Z.to_nat i) s.

Definition str_from (s : string) (i : Z) : string :=
  substring (Z.to_nat i) (String.length s - Z.to_nat i) s.

(** The leading-dot scan of [genericpath._splitext]: is some character of
    [p] in the range [filenameIndex, dotIndex) not a dot? *)
Fixpoint has_non_dot (p : string) (filenameIndex : Z) (steps : nat) : bool :=
  match steps with
  | O => false
  | S k =>
      match char_at p filenameIndex with
      | Some c => if Ascii.eqb c "." then has_non_dot p (filenameIndex + 1) k else true
      | None => true
      end
  end.

(** [os.path.splitext(p)[1]] (posixpath). *)
Definition splitext_ext (p : string) : string :=
  let sepIndex := rfind "/" p in
  let dotIndex := rfind "." p in
  if sepIndex <? dotIndex then
    if has_non_dot p (sepIndex + 1) (Z.to_nat (dotIndex - (sepIndex + 1)))
    then str_from p dotIndex
    else ""
  else "".

(** ** Calendar dates ([datetime.date]) *)

Module Date.

Record t : Type := mk { year : Z; month : Z; day : Z }.

Definition is_leap (y : Z) : bool :=
  (y mod 4 =? 0) && (negb (y mod 100 =? 0) || (y mod 400 =? 0)).

Definition days_in_month (y m : Z) : Z :=
  if m =? 2 then (if is_leap y then 29 else 28)
  else if (m =? 4) || (m =? 6) || (m =? 9) || (m =? 11) then 30
  else 31.

Definition days_before_year (y : Z) : Z :=
  let y' := y - 1 in y' * 365 + y' / 4 - y' / 100 + y' / 400.

Definition DAYS_BEFORE_MONTH : list Z :=
  [0; 31; 59; 90; 120; 151; 181; 212; 243; 273; 304; 334].

Definition days_before_month (y m : Z) : Z :=
  nth (Z.to_nat (m - 1)) DAYS_BEFORE_MONTH 0
  + (if (2 <? m) && is_leap y then 1 else 0).

Definition toordinal (d : t) : Z :=
  days_before_year (year d) + days_before_month (year d) (month d) + day d.

(** The constructor's range check ([MINYEAR] = 1, [MAXYEAR] = 9999). *)
Definition valid (y m d : Z) : bool :=
  (1 <=? y) && (y <=? 9999) && (1 <=? m) && (m <=? 12)
  && (1 <=? d) && (d <=? days_in_month y m).

(** Dates compare chronologically. *)
Definition leb (a b : t) : bool := toordinal a <=? toordinal b.
Definition ltb (a b : t) : bool := toordinal a <? toordinal b.

End Date.

Definition is_digit (c : ascii) : bool :=
  let n := Z.of_nat (nat_of_ascii c) in (48 <=? n) && (n <=? 57).

Definition digit_val (c : ascii) : Z := Z.of_nat (nat_of_ascii c) - 48.

(** The [%m] group of [_strptime]: [1[0-2]|0[1-9]|[1-9]]. *)
Definition parse_m (tok : list ascii) : option Z :=
  match tok with
  | [a] => if is_digit a && negb (Ascii.eqb a "0") then Some (digit_val a) else None
  | [a; b] =>
      if (Ascii.eqb a "1" && is_digit b && (digit_val b <=? 2))
         || (Ascii.eqb a "0" && is_digit b && negb (Ascii.eqb b "0"))
      then Some (10 * digit_val a + digit_val b) else None
  | _ => None
  end.

(** ** Section 2 of the program: database models *)

Module User.
Record t : Type := mk {
  id : Z;
  username : string;
  email : string;
  hashed_password : string
}.
End User.

Module UserCreate.
Record t : Type := mk {
  username : string;
  email : string;
  password : string
}.
End UserCreate.

Module JournalEntry.
Record t : Type := mk {
  id : Z;
  user_id : Z;
  date : Date.t;
  encrypted_content : string;
  emotion_primary : string;
  emotion_score : Q
}.
End JournalEntry.

(** Everything a request can read or change: the two tables, in insertion
    (rowid) order, and the files on disk as (path, content) pairs. *)
Record World : Type := mkWorld {
  users : list User.t;
  entries : list JournalEntry.t;
  files : list (string * string)
}.

(** ** State and exceptions *)

Inductive outcome (A : Type) : Type :=
| Return (a : A)
| Raise (e : exn).
Arguments Return {A} a.
Arguments Raise {A} e.

Definition M (A : Type) : Type := World -> outcome A * World.

Definition ret {A} (a : A) : M A := fun w => (Return a, w).

Definition raise {A} (e : exn) : M A := fun w => (Raise e, w).

Definition bind {A B} (m : M A) (k : A -> M B) : M B :=
  fun w =>
    match m w with
    | (Return a, w') => k a w'
    | (Raise e, w') => (Raise e, w')
    end.

Declare Scope py_scope.
Delimit Scope py_scope with py.
Notation "x <- m ;; k" := (bind m (fun x => k))
  (at level 100, m at next level, right associativity) : py_scope.
Notation "m ;; k" := (bind m (fun _ => k))
  (at level 100, right associativity) : py_scope.
Local Open Scope py_scope.

Definition lift {A} (o : outcome A) : M A := fun w => (o, w).

(** [try: body except Exception as e: handler e] *)
Definition try_except {A} (body : M A) (handler : exn -> M A) : M A :=
  fun w =>
    match body w with
    | (Return a, w') => (Return a, w')
    | (Raise e, w') => handler e w'
    end.

(** [try: body finally: cleanup]; an exception leaving [cleanup] would
    replace the outcome of [body]. *)
Definition try_finally {A} (body : M A) (cleanup : M unit) : M A :=
  fun w =>
    match body w with
    | (r, w') =>
        match cleanup w' with
        | (Return _, w'') => (r, w'')
        | (Raise e, w'') => (Raise e, w'')
        end
    end.

(** ** Table access ([Session.exec], [Session.add] + [commit]) *)

Definition select_users (where_ : User.t -> bool) : M (list User.t) :=
  fun w => (Return (filter where_ (users w)), w).

(** A query whose [where] is an [or_] of two equalities on columns with a
    unique index each: SQLite answers it one index at a time, the rows that
    match the first equality before those that match the second only. *)
Definition select_users_or (first_eq second_eq : User.t -> bool)
  : M (list User.t) :=
  fun w =>
    (Return (filter first_eq (users w)
             ++ filter (fun u => second_eq u && negb (first_eq u)) (users w))%list,
     w).

Definition first {A} (rows : list A) : option A := hd_error rows.

(** The key SQLite gives a row inserted without one. *)
Definition next_id (ids : list Z) : Z := fold_right Z.max 0 ids + 1.

Definition add_user (name mail hashed : string) : M unit :=
  fun w =>
    let row := User.mk (next_id (map User.id (users w))) name mail hashed in
    (Return tt, mkWorld (users w ++ [row]) (entries w) (files w)).

Definition select_entries (where_ : JournalEntry.t -> bool) : M (list JournalEntry.t) :=
  fun w => (Return (filter where_ (entries w)), w).

Definition add_entry (owner : Z) (d : Date.t) (content emotion : string) (score : Q)
  : M unit :=
  fun w =>
    let row := JournalEntry.mk (next_id (map JournalEntry.id (entries w)))
                 owner d content emotion score in
    (Return tt, mkWorld (users w) (entries w ++ [row]) (files w)).

(** [ORDER BY date]: a stable insertion sort on the date column. *)
Fixpoint insert_by_date (e : JournalEntry.t) (l : list JournalEntry.t)
  : list JournalEntry.t :=
  match l with
  | [] => [e]
  | x :: l' =>
      if Date.ltb (JournalEntry.date e) (JournalEntry.date x)
      then e :: l
      else x :: insert_by_date e l'
  end.

Definition order_by_date (l : list JournalEntry.t) : list JournalEntry.t :=
  fold_left (fun acc e => insert_by_date e acc) l [].

(** ** Section 1 and 3 of the program: configuration and authentication *)

Definition SECRET_KEY : string := "YOUR_SUPER_SECRET_KEY_CHANGE_THIS".
Definition ACCESS_TOKEN_EXPIRE_MINUTES : Z := 60 * 24.

(** The claims of a token and the token itself: the payload with its
    HS256 signature.  [exp] is in whole seconds since the epoch, as
    [jwt.encode] writes it. *)
Record Claims : Type := mkClaims { sub : option string; exp : option Z }.
Record Token : Type := mkToken { payload : Claims; signature : string }.

(** The collaborators the program consumes through their contracts: the
    models and libraries it calls, and what it takes from the interpreter
    and the framework it runs on. *)
Class Collaborators : Type := {
  (** tokenizer, [emotion_model], sigmoid and [tolist] *)
  classify : string -> list Q;
  (** [cipher_suite.encrypt] *)
  cipher_encrypt : string -> string;
  (** [whisper_model.transcribe] on the bytes of the file: the ["text"]
      entry of its result, when it has one *)
  whisper_transcribe : string -> outcome (option string);
  (** [pwd_context.hash] and [pwd_context.verify] *)
  get_password_hash : string -> string;
  verify_password : string -> string -> bool;
  (** HMAC-SHA256 of the encoded claims under a key *)
  hs256 : string -> Claims -> string;
  (** the decimal digits beyond ASCII of the interpreter's Unicode table:
      for a string that starts with one, its value and the rest *)
  unicode_decimal : list ascii -> option (Z * list ascii);
  (** the text of the [ValueError] that [strptime] raises for a string *)
  strptime_error : string -> string;
  (** [round(score * 100, 2)], in the interpreter's double arithmetic *)
  round_percent : Q -> Q;
  (** what [EmailStr] makes of a string: the normalised address, or nothing
      when it is not an address *)
  validate_email : string -> option string
}.

(** *** Parsing the date ([datetime.strptime] with "%Y-%m-%d") *)

Section Parsing.

Context {C : Collaborators}.

(** One character that the [\d] of the format's regular expression
    accepts, with its value and what follows it: an ASCII digit, or a
    decimal digit of another script. *)
Definition read_decimal (s : list ascii) : option (Z * list ascii) :=
  match s with
  | [] => None
  | c :: rest =>
      if is_digit c then Some (digit_val c, rest)
      else if Z.of_nat (nat_of_ascii c) <? 128 then None
      else unicode_decimal s
  end.

(** The [%d] group, [3[0-1]|[1-2]\d|0[1-9]|[1-9]| [1-9]], matched against all
    that is left of the string. *)
Definition parse_d (tok : list ascii) : option Z :=
  match tok with
  | [] => None
  | [a] => if is_digit a && negb (Ascii.eqb a "0") then Some (digit_val a) else None
  | a :: rest =>
      if Ascii.eqb a "3" then
        match rest with
        | [b] => if is_digit b && (digit_val b <=? 1)
                 then Some (30 + digit_val b) else None
        | _ => None
        end
      else if Ascii.eqb a "1" || Ascii.eqb a "2" then
        match read_decimal rest with
        | Some (v, []) => Some (10 * digit_val a + v)
        | _ => None
        end
      else if Ascii.eqb a "0" || Ascii.eqb a " " then
        match rest with
        | [b] => if is_digit b && negb (Ascii.eqb b "0")
                 then Some (digit_val b) else None
        | _ => None
        end
      else None
  end.

(** What follows the year: "-", the [%m] group, "-", the [%d] group. *)
Definition parse_month_day (y : Z) (s : list ascii) : option Date.t :=
  match s with
  | dash :: rest =>
      if Ascii.eqb dash "-" then
        let md :=
          match rest with
          | m1 :: sep :: d =>
              if Ascii.eqb sep "-" then Some ([m1], d)
              else match d with
                   | sep' :: d' =>
                       if Ascii.eqb sep' "-" then Some ([m1; sep], d') else None
                   | [] => None
                   end
          | _ => None
          end in
        match md with
        | Some (mtok, dtok) =>
            match parse_m mtok, parse_d dtok with
            | Some m, Some d =>
                if Date.valid y m d then Some (Date.mk y m d) else None
            | _, _ => None
            end
        | None => None
        end
      else None
  | [] => None
  end.

(** [datetime.datetime.strptime(date_str, "%Y-%m-%d").date()]; [None] stands
    for the [ValueError] it raises. *)
Definition strptime_ymd (date_str : string) : option Date.t :=
  match read_decimal (list_ascii_of_string date_str) with
  | Some (y1, s1) =>
      match read_decimal s1 with
      | Some (y2, s2) =>
          match read_decimal s2 with
          | Some (y3, s3) =>
              match read_decimal s3 with
              | Some (y4, s4) =>
                  parse_month_day (1000 * y1 + 100 * y2 + 10 * y3 + y4) s4
              | None => None
              end
          | None => None
          end
      | None => None
      end
  | None => None
  end.

End Parsing.

(** Times are microseconds since the epoch, the resolution of
    [datetime.utcnow()]. *)
Definition timedelta_minutes (m : Z) : Z := m * 60 * 1000000.

(** [timegm(t.utctimetuple())]: whole seconds, the microseconds dropped. *)
Definition timegm (t : Z) : Z := t / 1000000.

Definition credentials_exception : exn :=
  HTTPException 401 "Could not validate credentials".

(** ** Section 4 of the program: the label table *)

Definition EMOTION_LABELS : list (Z * string) :=
  [ (0, "admiration"); (1, "amusement"); (2, "anger"); (3, "annoyance");
    (4, "approval"); (5, "caring"); (6, "confusion"); (7, "curiosity");
    (8, "desire"); (9, "disappointment"); (10, "disapproval"); (11, "disgust");
    (12, "embarrassment"); (13, "excitement"); (14, "fear"); (15, "gratitude");
    (16, "grief"); (17, "joy"); (18, "love"); (19, "nervousness");
    (20, "optimism"); (21, "pride"); (22, "realization"); (23, "relief");
    (24, "remorse"); (25, "sadness"); (26, "surprise"); (27, "neutral") ].

(** [d.get(k, default)] *)
Fixpoint dict_get (d : list (Z * string)) (k : Z) (default : string) : string :=
  match d with
  | [] => default
  | (k', v) :: d' => if k' =? k then v else dict_get d' k default
  end.

(** [max(l)]: the running maximum is replaced only by a strictly greater
    item; [ValueError] on the empty list. *)
Fixpoint max_from (cur : Q) (l : list Q) : Q :=
  match l with
  | [] => cur
  | x :: l' => max_from (if Qle_bool x cur then cur else x) l'
  end.

Definition py_max (l : list Q) : outcome Q :=
  match l with
  | [] => Raise (ValueError "max() arg is an empty sequence")
  | x :: l' => Return (max_from x l')
  end.

(** [l.index(x)]: the first position whose item equals [x]. *)
Fixpoint index_from (l : list Q) (x : Q) (i : Z) : outcome Z :=
  match l with
  | [] => Raise (ValueError "x is not in list")
  | y :: l' => if Qeq_bool y x then Return i else index_from l' x (i + 1)
  end.

Definition py_index (l : list Q) (x : Q) : outcome Z := index_from l x 0.

(** [x in l] for strings. *)
Definition str_in (x : string) (l : list string) : bool :=
  existsb (String.eqb x) l.

(** The insight text of [process_entry_logic]: a default and four
    assignments, each guarded by a membership test, in program order. *)
Definition insight_of (emotion : string) : string :=
  let insight := "Take a moment to breathe." in
  let insight :=
    if str_in emotion ["anger"; "annoyance"]
    then "Try the physiological sigh: 2 short inhales, 1 long exhale to reset autonomic nervous system."
    else insight in
  let insight :=
    if str_in emotion ["joy"; "excitement"; "optimism"]
    then "Savoring: Write down 3 specific sensory details about this feeling to strengthen neural pathways."
    else insight in
  let insight :=
    if str_in emotion ["sadness"; "grief"; "disappointment"]
    then "Behavioral Activation: Do one very small, functional task (like washing a cup) to break the inertia."
    else insight in
  let insight :=
    if str_in emotion ["fear"; "nervousness"]
    then "Box Breathing: Inhale 4s, Hold 4s, Exhale 4s, Hold 4s to activate the parasympathetic system."
    else insight in
  insight.

(** The same four guarded assignments as data, to run them in any order. *)
Definition insight_rules : list (list string * string) :=
  [ (["anger"; "annoyance"],
     "Try the physiological sigh: 2 short inhales, 1 long exhale to reset autonomic nervous system.");
    (["joy"; "excitement"; "optimism"],
     "Savoring: Write down 3 specific sensory details about this feeling to strengthen neural pathways.");
    (["sadness"; "grief"; "disappointment"],
     "Behavioral Activation: Do one very small, functional task (like washing a cup) to break the inertia.");
    (["fear"; "nervousness"],
     "Box Breathing: Inhale 4s, Hold 4s, Exhale 4s, Hold 4s to activate the parasympathetic system.") ].

Definition run_rules (rules : list (list string * string)) (emotion : string)
  : string :=
  fold_left
    (fun insight rule => if str_in emotion (fst rule) then snd rule else insight)
    rules "Take a moment to breathe.".

(** The response dictionary of the analyze endpoints; the two audio keys are
    absent on the text path. *)
Record Response : Type := mkResponse {
  emotion : string;
  score : Q;
  insight : string;
  history_count : Z;
  is_audio : option bool;
  transcription : option string
}.

(** An uploaded file and what the disk does during one request: the names
    [tempfile] draws, and the [OSError] messages writing and removing meet,
    if any. *)
Record UploadFile : Type := mkUpload { filename : option string; file : string }.

Record Disk : Type := mkDisk {
  tmp_names : list string;
  write_error : option string;
  remove_error : option string
}.

Definition path_exists (path : string) : M bool :=
  fun w => (Return (existsb (fun f => String.eqb (fst f) path) (files w)), w).

Definition tmp_path_of (name suffix : string) : string :=
  "/tmp/tmp" ++ name ++ suffix.

(** [tempfile.NamedTemporaryFile(delete=False, suffix=...)]: the first drawn
    name that no file has yet; the file is created empty. *)
Fixpoint NamedTemporaryFile_from (names : list string) (suffix : string)
  : M string :=
  match names with
  | [] => raise (OSError "No usable temporary file name found")
  | n :: names' =>
      fun w =>
        let path := tmp_path_of n suffix in
        if existsb (fun f => String.eqb (fst f) path) (files w)
        then NamedTemporaryFile_from names' suffix w
        else (Return path, mkWorld (users w) (entries w) (files w ++ [(path, "")]))
  end.

(** [shutil.copyfileobj(src, tmp)] *)
Definition copyfileobj (disk : Disk) (content path : string) : M unit :=
  match write_error disk with
  | Some msg => raise (OSError msg)
  | None =>
      fun w =>
        (Return tt,
         mkWorld (users w) (entries w)
           (map (fun f => if String.eqb (fst f) path then (path, content) else f)
              (files w)))
  end.

(** [os.remove(path)] *)
Definition os_remove (disk : Disk) (path : string) : M unit :=
  match remove_error disk with
  | Some msg => raise (OSError msg)
  | None =>
      fun w =>
        (Return tt,
         mkWorld (users w) (entries w)
           (filter (fun f => negb (String.eqb (fst f) path)) (files w)))
  end.

Definition read_file (path : string) : M string :=
  fun w =>
    match find (fun f => String.eqb (fst f) path) (files w) with
    | Some f => (Return (snd f), w)
    | None => (Raise (OSError "No such file or directory"), w)
    end.

(** The extension the temporary file is given. *)
Definition upload_ext (upload : UploadFile) : string :=
  str_or (splitext_ext
            match filename upload with
            | Some f => str_or f "recording.webm"
            | None => "recording.webm"
            end) ".webm".

Section Program.

Context {C : Collaborators}.

(** *** python-jose, as the program uses it *)

(** [jwt.encode(claims, key, algorithm="HS256")] *)
Definition jwt_encode (claims : Claims) (key : string) : Token :=
  mkToken claims (hs256 key claims).

(** [jwt.decode(token, key, algorithms=["HS256"])] at clock reading [utcnow]:
    the signature is checked first; then, when the claims carry [exp],
    [ExpiredSignatureError] (a [JWTError]) is raised if
    [exp < timegm(utcnow)]. *)
Definition jwt_decode (token : Token) (key : string) (utcnow : Z)
  : outcome Claims :=
  if negb (String.eqb (signature token) (hs256 key (payload token)))
  then Raise (JWTError "Signature verification failed.")
  else
    match exp (payload token) with
    | Some e =>
        if e <? timegm utcnow
        then Raise (JWTError "Signature has expired.")
        else Return (payload token)
    | None => Return (payload token)
    end.

(** *** Section 3: authentication helpers *)

Definition create_access_token (data : Claims) (utcnow : Z) : Token :=
  let expire := utcnow + timedelta_minutes ACCESS_TOKEN_EXPIRE_MINUTES in
  let to_encode := mkClaims (sub data) (Some (timegm expire)) in
  jwt_encode to_encode SECRET_KEY.

Definition get_current_user (utcnow : Z) (token : Token) : M User.t :=
  username <-
    try_except
      (payload <- lift (jwt_decode token SECRET_KEY utcnow) ;;
       match sub payload with
       | None => raise credentials_exception
       | Some username => ret username
       end)
      (fun e =>
         match e with
         | JWTError _ => raise credentials_exception
         | _ => raise e
         end) ;;
  rows <- select_users (fun u => String.eqb (User.username u) username) ;;
  match first rows with
  | None => raise credentials_exception
  | Some user => ret user
  end.

(** *** Section 6: auth endpoints *)

Definition signup (user_data : UserCreate.t) : M string :=
  rows <- select_users_or
            (fun u => String.eqb (User.username u) (UserCreate.username user_data))
            (fun u => String.eqb (User.email u) (UserCreate.email user_data)) ;;
  match first rows with
  | Some existing_user =>
      (if String.eqb (User.username existing_user) (UserCreate.username user_data)
       then raise (HTTPException 400 "Username already taken")
       else ret tt) ;;
      (if String.eqb (User.email existing_user) (UserCreate.email user_data)
       then raise (HTTPException 400 "Email already registered")
       else ret tt)
  | None => ret tt
  end ;;
  add_user (UserCreate.username user_data) (UserCreate.email user_data)
    (get_password_hash (UserCreate.password user_data)) ;;
  ret "User created successfully".

Definition login (utcnow : Z) (form_username form_password : string) : M Token :=
  rows <- select_users (fun u => String.eqb (User.username u) form_username) ;;
  match first rows with
  | None => raise (HTTPException 400 "User not found, please create a new account")
  | Some user =>
      if negb (verify_password form_password (User.hashed_password user))
      then raise (HTTPException 400 "Incorrect password")
      else ret (create_access_token (mkClaims (Some (User.username user)) None) utcnow)
  end.

(** *** Section 7: the endpoints behind the token gate *)

(** [entry_date - datetime.timedelta(days=n)], kept as the ordinal of the
    resulting day; [OverflowError] before 0001-01-01. *)
Definition date_minus_days (d : Date.t) (n : Z) : outcome Z :=
  let o := Date.toordinal d - n in
  if o <? 1 then Raise (OverflowError "date value out of range") else Return o.

(** The [where] clause of the history query: the caller's rows dated on or
    after the day of ordinal [since]. *)
Definition history_where (user : User.t) (since : Z) (e : JournalEntry.t) : bool :=
  (JournalEntry.user_id e =? User.id user)
  && (since <=? Date.toordinal (JournalEntry.date e)).

Definition process_entry_logic (text date_str : string) (user : User.t)
  : M Response :=
  let probs := classify text in
  m <- lift (py_max probs) ;;
  max_idx <- lift (py_index probs m) ;;
  let emotion := dict_get EMOTION_LABELS max_idx "neutral" in
  score <- lift (py_max probs) ;;
  let encrypted_text := cipher_encrypt text in
  entry_date <- lift (match strptime_ymd date_str with
                      | Some d => Return d
                      | None => Raise (ValueError (strptime_error date_str))
                      end) ;;
  add_entry (User.id user) entry_date encrypted_text emotion score ;;
  since <- lift (date_minus_days entry_date 90) ;;
  history_results <- select_entries (history_where user since) ;;
  let insight := insight_of emotion in
  ret (mkResponse emotion (round_percent score) insight
         (Z.of_nat (List.length history_results)) None None).

Definition analyze_text (text date : string) (current_user : User.t)
  : M Response :=
  process_entry_logic text date current_user.

Definition analyze_audio (disk : Disk) (upload : UploadFile) (date : string)
  (current_user : User.t) : M Response :=
  let filename :=
    match filename upload with
    | Some f => str_or f "recording.webm"
    | None => "recording.webm"
    end in
  let file_ext := str_or (splitext_ext filename) ".webm" in
  tmp_path <-
    (tmp <- NamedTemporaryFile_from (tmp_names disk) file_ext ;;
     copyfileobj disk (file upload) tmp ;;
     ret tmp) ;;
  try_finally
    (try_except
       (audio <- read_file tmp_path ;;
        result <- lift (whisper_transcribe audio) ;;
        let transcribed_text :=
          strip (match result with Some t => t | None => "" end) in
        (if negb (truthy transcribed_text)
         then raise (HTTPException 400 "Could not transcribe audio.")
         else ret tt) ;;
        response <- process_entry_logic transcribed_text date current_user ;;
        ret (mkResponse (emotion response) (score response) (insight response)
               (history_count response) (Some true) (Some transcribed_text)))
       (fun e => raise (HTTPException 500 (str_exn e))))
    (try_except
       (present <- path_exists tmp_path ;;
        if present then os_remove disk tmp_path else ret tt)
       (fun _ => ret tt)).

Definition get_history (current_user : User.t) : M (list (Date.t * string)) :=
  rows <- select_entries
            (fun e => JournalEntry.user_id e =? User.id current_user) ;;
  let entries := order_by_date rows in
  let data :=
    map (fun e => (JournalEntry.date e, JournalEntry.emotion_primary e)) entries in
  ret data.

End Program.

(** ** Section 5 and the route decorators: the application as served *)

(** A request to one of the five routes.  The secured routes carry the
    bearer token of the [Authorization] header, if there is one; the audio
    route also carries what the disk does while it is served. *)
Inductive Request : Type :=
| PostSignup (user_data : UserCreate.t)
| PostToken (form_username form_password : string)
| PostAnalyzeText (authorization : option Token) (text date : string)
| PostAnalyzeAudio (authorization : option Token) (disk : Disk)
    (upload : UploadFile) (date : string)
| GetHistory (authorization : option Token).

(** What a route returns. *)
Inductive Reply : Type :=
| Message (message : string)
| AccessToken (access_token : Token) (token_type : string)
| Analysis (response : Response)
| History (data : list (Date.t * string)).

(** The constraints the two tables are declared with: [unique=True] on
    username and email, the primary keys, and the foreign key of
    [JournalEntry.user_id]. *)
Record schema_ok (w : World) : Prop := mkSchemaOk {
  usernames_unique : NoDup (map User.username (users w));
  emails_unique : NoDup (map User.email (users w));
  user_ids_unique : NoDup (map User.id (users w));
  entry_ids_unique : NoDup (map JournalEntry.id (entries w));
  owners_exist :
    forall e, In e (entries w) ->
              exists u, In u (users w) /\ User.id u = JournalEntry.user_id e
}.

Section Server.

Context {C : Collaborators}.

(** [OAuth2PasswordBearer(tokenUrl="token")]: the bearer token, or a 401
    when the request has none. *)
Definition oauth2_scheme (authorization : option Token) : M Token :=
  match authorization with
  | Some token => ret token
  | None => raise (HTTPException 401 "Not authenticated")
  end.

(** Parameters declared [Form(...)] are required, and an empty value counts
    as a missing one: when some are missing the request is refused with a
    [RequestValidationError] that names them, in the order of the
    signature. *)
Definition Form (fields : list (string * string)) : M unit :=
  match filter (fun field => negb (truthy (snd field))) fields with
  | [] => ret tt
  | missing => raise (RequestValidationError (map fst missing))
  end.

(** A field declared [EmailStr] reaches the route as the normalised
    address; a string that is no address is refused. *)
Definition EmailStr (field value : string) : M string :=
  match validate_email value with
  | Some normalised => ret normalised
  | None => raise (RequestValidationError [field])
  end.

(** A route with [current_user: User = Depends(get_current_user)] gets its
    user first; then its own parameters are validated; its body runs only
    when both went through.  The form of the token route,
    [OAuth2PasswordRequestForm], declares its username and password with
    [Form()]. *)
Definition serve (utcnow : Z) (request : Request) : M Reply :=
  match request with
  | PostSignup user_data =>
      message <- (email <- EmailStr "email" (UserCreate.email user_data) ;;
                  signup (UserCreate.mk (UserCreate.username user_data) email
                            (UserCreate.password user_data))) ;;
      ret (Message message)
  | PostToken form_username form_password =>
      access_token <- (Form [("username", form_username);
                             ("password", form_password)] ;;
                       login utcnow form_username form_password) ;;
      ret (AccessToken access_token "bearer")
  | PostAnalyzeText authorization text date =>
      token <- oauth2_scheme authorization ;;
      current_user <- get_current_user utcnow token ;;
      response <- (Form [("text", text); ("date", date)] ;;
                   analyze_text text date current_user) ;;
      ret (Analysis response)
  | PostAnalyzeAudio authorization disk upload date =>
      token <- oauth2_scheme authorization ;;
      current_user <- get_current_user utcnow token ;;
      response <- (Form [("date", date)] ;;
                   analyze_audio disk upload date current_user) ;;
      ret (Analysis response)
  | GetHistory authorization =>
      token <- oauth2_scheme authorization ;;
      current_user <- get_current_user utcnow token ;;
      data <- get_history current_user ;;
      ret (History data)
  end.

(** The state after a sequence of requests, each served at its own time,
    whatever each of them returned or raised. *)
Fixpoint serve_all (requests : list (Z * Request)) (w : World) : World :=
  match requests with
  | [] => w
  | (utcnow, request) :: requests' =>
      serve_all requests' (snd (serve utcnow request w))
  end.

End Server.

(** ** A mock set of collaborators, for running the program on examples *)

Module Mock.

(** Twenty-eight probabilities: 0.87 at [hot], 0.10 elsewhere. *)
Definition one_hot (hot : nat) : list Q :=
  map (fun i => if Nat.eqb i hot then (87 # 100)%Q else (1 # 10)%Q) (seq 0 28).

(** A tie for the maximum at positions 13 and 17, and a vector longer than
    the table whose maximum sits at position 29. *)
Definition tied : list Q :=
  map (fun i => if Nat.eqb i 13 || Nat.eqb i 17 then (9 # 10)%Q else (1 # 5)%Q)
    (seq 0 28).
Definition overlong : list Q :=
  map (fun i => if Nat.eqb i 29 then (3 # 4)%Q else (1 # 4)%Q) (seq 0 30).

(** Rounding to the nearest hundredth, halves to even, in exact
    arithmetic. *)
Definition round2 (x : Q) : Q :=
  let y := (x * 100)%Q in
  let n := Qfloor y in
  let r := (y - inject_Z n)%Q in
  let up :=
    match Qcompare r (1 # 2) with
    | Lt => false
    | Gt => true
    | Eq => Z.odd n
    end in
  ((if up then n + 1 else n) # 100)%Q.

(** One script of digits beyond ASCII, the Arabic-Indic U+0660 to U+0669
    (bytes 217, 160 to 169).  The parser's message is the one it has for a
    string that does not match the format, percentages are rounded as exact
    numbers, and an address is a string with an at sign, left as it is. *)
Definition arabic_indic (s : list ascii) : option (Z * list ascii) :=
  match s with
  | c1 :: c2 :: rest =>
      let n2 := Z.of_nat (nat_of_ascii c2) in
      if (Z.of_nat (nat_of_ascii c1) =? 217) && (160 <=? n2) && (n2 <=? 169)
      then Some (n2 - 160, rest) else None
  | _ => None
  end.

Definition collaborators : Collaborators := {|
  classify := fun text =>
    if String.eqb text "I am so angry today" then one_hot 2
    else if String.eqb text "what a day" then tied
    else if String.eqb text "beyond words" then overlong
    else one_hot 27;
  cipher_encrypt := fun text => "gAAAAA" ++ String.string_of_list_ascii
                                  (rev (String.list_ascii_of_string text));
  whisper_transcribe := fun audio =>
    if String.eqb audio "corrupt" then Raise (RuntimeError "Failed to load audio")
    else Return (Some audio);
  get_password_hash := fun password => "$2b$12$" ++ password;
  verify_password := fun plain hashed => String.eqb hashed ("$2b$12$" ++ plain);
  hs256 := fun key claims =>
    key ++ "|" ++ match sub claims with Some s => s | None => "" end
        ++ "|" ++ match exp claims with Some e => str_of_int e | None => "" end;
  unicode_decimal := arabic_indic;
  strptime_error := fun date_str =>
    "time data '" ++ date_str ++ "' does not match format '%Y-%m-%d'";
  round_percent := fun score => round2 (score * 100);
  validate_email := fun value =>
    if existsb (Ascii.eqb "@") (list_ascii_of_string value)
    then Some value else None
|}.

Definition empty : World := mkWorld [] [] [].

Definition alice : User.t :=
  User.mk 1 "alice" "alice@example.org" "$2b$12$wonderland".
Definition bob : User.t :=
  User.mk 2 "bob" "bob@example.org" "$2b$12$builder".

Definition disk_ok : Disk := mkDisk ["a1b2c3d4"] None None.
Definition disk_full : Disk :=
  mkDisk ["a1b2c3d4"] (Some "[Errno 28] No space left on device") None.

(** Alice, then Bob, sign up. *)
Definition registered : World :=
  snd (signup (C := collaborators)
         (UserCreate.mk "bob" "bob@example.org" "builder")
         (snd (signup (C := collaborators)
                 (UserCreate.mk "alice" "alice@example.org" "wonderland")
                 empty))).

(** Both then write: Alice in March, Bob in January, Alice again in
    January. *)
Definition journals : World :=
  snd (analyze_text (C := collaborators) "quiet evening" "2024-01-15" alice
         (snd (analyze_text (C := collaborators) "what a day" "2024-01-05" bob
                 (snd (analyze_text (C := collaborators) "I am so angry today"
                         "2024-03-10" alice registered))))).

End Mock.

(** * Properties *)

(** ** The insight mapping *)

(** Running a list of guarded assignments leaves the text of the last rule
    whose group holds the emotion. *)
Lemma run_rules_filter (rules : list (list string * string)) (emotion init : string) :
  fold_left
    (fun insight rule => if str_in emotion (fst rule) then snd rule else insight)
    rules init
  = fold_left (fun _ rule => snd rule)
      (filter (fun rule => str_in emotion (fst rule)) rules) init.
Proof.
  revert init.
  induction rules as [|r rules IH]; intros init; simpl.
  - reflexivity.
  - destruct (str_in emotion (fst r)); simpl; apply IH.
Qed.

Lemma filter_Permutation {A} (f : A -> bool) (l l' : list A) :
  Permutation l l' -> Permutation (filter f l) (filter f l').
Proof.
  induction 1 as [|x l l' _ IH|x y l|l l' l'' _ IH1 _ IH2]; simpl.
  - constructor.
  - destruct (f x); [constructor|]; exact IH.
  - destruct (f x), (f y); try apply Permutation_refl. apply perm_swap.
  - eapply Permutation_trans; eassumption.
Qed.

(** Case analysis on whether a string is one of the ten grouped labels. *)
Ltac label_cases e :=
  destruct (String.eqb_spec e "anger");
  [subst e|destruct (String.eqb_spec e "annoyance");
  [subst e|destruct (String.eqb_spec e "joy");
  [subst e|destruct (String.eqb_spec e "excitement");
  [subst e|destruct (String.eqb_spec e "optimism");
  [subst e|destruct (String.eqb_spec e "sadness");
  [subst e|destruct (String.eqb_spec e "grief");
  [subst e|destruct (String.eqb_spec e "disappointment");
  [subst e|destruct (String.eqb_spec e "fear");
  [subst e|destruct (String.eqb_spec e "nervousness");
  [subst e|]]]]]]]]]].

(** No emotion is in two groups: at most one rule fires. *)
Lemma insight_groups_disjoint (e : string) :
  (List.length (filter (fun rule => str_in e (fst rule)) insight_rules) <= 1)%nat.
Proof.
  unfold insight_rules, str_in; simpl.
  label_cases e; simpl; lia.
Qed.

Lemma insight_of_run_rules (e : string) : insight_of e = run_rules insight_rules e.
Proof. reflexivity. Qed.

(** C4: the insight mapping.  [insight_of] is a Rocq function, hence total
    and deterministic; the four groups map to their four fixed texts; every
    string outside the groups, "neutral" and every other label of the table
    included, maps to "Take a moment to breathe."; no string is in two
    groups; and running the four guarded assignments in any order gives the
    same text. *)
Theorem insight_mapping :
  (forall e, In e ["anger"; "annoyance"] ->
     insight_of e = "Try the physiological sigh: 2 short inhales, 1 long exhale to reset autonomic nervous system.")
  /\ (forall e, In e ["joy"; "excitement"; "optimism"] ->
     insight_of e = "Savoring: Write down 3 specific sensory details about this feeling to strengthen neural pathways.")
  /\ (forall e, In e ["sadness"; "grief"; "disappointment"] ->
     insight_of e = "Behavioral Activation: Do one very small, functional task (like washing a cup) to break the inertia.")
  /\ (forall e, In e ["fear"; "nervousness"] ->
     insight_of e = "Box Breathing: Inhale 4s, Hold 4s, Exhale 4s, Hold 4s to activate the parasympathetic system.")
  /\ (forall e,
        ~ In e ["anger"; "annoyance"; "joy"; "excitement"; "optimism";
                "sadness"; "grief"; "disappointment"; "fear"; "nervousness"] ->
        insight_of e = "Take a moment to breathe.")
  /\ insight_of "neutral" = "Take a moment to breathe."
  /\ (forall i label, In (i, label) EMOTION_LABELS ->
        ~ In label ["anger"; "annoyance"; "joy"; "excitement"; "optimism";
                    "sadness"; "grief"; "disappointment"; "fear"; "nervousness"] ->
        insight_of label = "Take a moment to breathe.")
  /\ (forall e g1 g2 s1 s2 l1 l2 l3,
        insight_rules = (l1 ++ (g1, s1) :: l2 ++ (g2, s2) :: l3)%list ->
        str_in e g1 = true -> str_in e g2 = true -> False)
  /\ (forall rules e, Permutation insight_rules rules ->
        run_rules rules e = insight_of e).
Proof.
  assert (Hdef : forall e,
    ~ In e ["anger"; "annoyance"; "joy"; "excitement"; "optimism";
            "sadness"; "grief"; "disappointment"; "fear"; "nervousness"] ->
    insight_of e = "Take a moment to breathe.").
  { intros e Hn. unfold insight_of, str_in; simpl.
    label_cases e; try (exfalso; apply Hn; simpl; tauto).
    reflexivity. }
  repeat split.
  - intros e [<-|[<-|[]]]; reflexivity.
  - intros e [<-|[<-|[<-|[]]]]; reflexivity.
  - intros e [<-|[<-|[<-|[]]]]; reflexivity.
  - intros e [<-|[<-|[]]]; reflexivity.
  - exact Hdef.
  - intros i label _ Hn. apply Hdef, Hn.
  - intros e g1 g2 s1 s2 l1 l2 l3 Heq H1 H2.
    pose proof (insight_groups_disjoint e) as Hlen.
    rewrite Heq in Hlen.
    rewrite filter_app in Hlen; simpl in Hlen; rewrite H1 in Hlen.
    rewrite filter_app in Hlen; simpl in Hlen; rewrite H2 in Hlen.
    rewrite length_app in Hlen; simpl in Hlen.
    rewrite length_app in Hlen; simpl in Hlen. lia.
  - intros rules e Hp.
    rewrite insight_of_run_rules. unfold run_rules.
    rewrite !run_rules_filter.
    pose proof (insight_groups_disjoint e) as Hlen.
    pose proof (filter_Permutation (fun rule => str_in e (fst rule)) _ _ Hp) as Hf.
    destruct (filter (fun rule => str_in e (fst rule)) insight_rules)
      as [|r [|r' rest]] eqn:E.
    + apply Permutation_nil in Hf. rewrite Hf. reflexivity.
    + apply Permutation_length_1_inv in Hf. rewrite Hf. reflexivity.
    + simpl in Hlen; lia.
Qed.

(** The mapping at work on one label of each kind, and with the rules run
    backwards. *)
Lemma insight_mapping_witness :
  insight_of "grief"
  = "Behavioral Activation: Do one very small, functional task (like washing a cup) to break the inertia."
  /\ insight_of "surprise" = "Take a moment to breathe."
  /\ run_rules (rev insight_rules) "fear" = insight_of "fear".
Proof.
  destruct insight_mapping as (_ & _ & H3 & _ & _ & _ & H7 & _ & H9).
  split; [|split].
  - apply H3. simpl. tauto.
  - apply (H7 26). { simpl. tauto. }
    simpl. intros H.
    repeat (destruct H as [H|H]; [discriminate H|]). exact H.
  - apply H9. apply Permutation_rev.
Defined.

(** ** Maximum and first index of a probability vector *)

Lemma max_from_spec (l : list Q) : forall cur,
  (cur <= max_from cur l)%Q
  /\ Forall (fun x => (x <= max_from cur l)%Q) l
  /\ (max_from cur l = cur \/ In (max_from cur l) l).
Proof.
  induction l as [|x l IH]; intros cur; simpl.
  - split; [apply Qle_refl|]. split; [constructor|now left].
  - destruct (Qle_bool x cur) eqn:E.
    + apply Qle_bool_iff in E.
      destruct (IH cur) as (H1 & H2 & H3).
      split; [exact H1|]. split.
      * constructor; [eapply Qle_trans; eassumption|exact H2].
      * destruct H3 as [H3|H3]; [now left|right; now right].
    + assert (Hlt : (cur < x)%Q).
      { apply Qnot_le_lt. intros H. apply Qle_bool_iff in H. congruence. }
      destruct (IH x) as (H1 & H2 & H3).
      split; [eapply Qle_trans; [apply Qlt_le_weak; exact Hlt|exact H1]|].
      split.
      * constructor; assumption.
      * right. destruct H3 as [H3|H3]; [left; now symmetry|now right].
Qed.

Lemma py_max_spec (l : list Q) :
  l <> [] ->
  exists m, py_max l = Return m /\ In m l /\ Forall (fun x => (x <= m)%Q) l.
Proof.
  destruct l as [|x l]; [congruence|]. intros _.
  exists (max_from x l). simpl.
  destruct (max_from_spec l x) as (H1 & H2 & H3).
  split; [reflexivity|]. split.
  - destruct H3 as [->|H3]; [now left|now right].
  - constructor; assumption.
Qed.

Lemma index_from_spec (l : list Q) (x : Q) : forall i,
  (exists y, In y l /\ (y == x)%Q) ->
  exists k : nat,
    index_from l x i = Return (i + Z.of_nat k)
    /\ (k < List.length l)%nat
    /\ (nth k l 0 == x)%Q
    /\ forall j, (j < k)%nat -> ~ (nth j l 0 == x)%Q.
Proof.
  induction l as [|y l IH]; intros i (z & Hin & Hz).
  - destruct Hin.
  - simpl. destruct (Qeq_bool y x) eqn:E.
    + exists 0%nat. rewrite Z.add_0_r.
      split; [reflexivity|]. split; [simpl; lia|].
      split; [now apply Qeq_bool_iff|]. intros j Hj; lia.
    + assert (Hne : ~ (y == x)%Q).
      { intros H. apply Qeq_bool_iff in H. congruence. }
      destruct Hin as [->|Hin]; [contradiction|].
      destruct (IH (i + 1) (ex_intro _ z (conj Hin Hz))) as (k & Hk1 & Hk2 & Hk3 & Hk4).
      exists (S k). split; [rewrite Hk1; f_equal; lia|].
      split; [simpl; lia|]. split; [exact Hk3|].
      intros [|j] Hj; simpl; [exact Hne|apply Hk4; lia].
Qed.

(** [probs.index(max(probs))] on a non-empty vector: the maximum exists, and
    the index returned is the lowest position that holds it. *)
Lemma argmax_spec (probs : list Q) :
  probs <> [] ->
  exists (m : Q) (k : nat),
    py_max probs = Return m
    /\ py_index probs m = Return (Z.of_nat k)
    /\ In m probs
    /\ (forall j, (j < List.length probs)%nat -> (nth j probs 0 <= m)%Q)
    /\ (k < List.length probs)%nat
    /\ (nth k probs 0 == m)%Q
    /\ (forall j, (j < k)%nat -> (nth j probs 0 < m)%Q).
Proof.
  intros Hne.
  destruct (py_max_spec probs Hne) as (m & Hm & Hin & Hall).
  assert (Hle : forall j, (j < List.length probs)%nat -> (nth j probs 0 <= m)%Q).
  { intros j Hj. rewrite Forall_forall in Hall. apply Hall, nth_In, Hj. }
  destruct (index_from_spec probs m 0
              (ex_intro _ m (conj Hin (Qeq_refl m)))) as (k & Hk1 & Hk2 & Hk3 & Hk4).
  exists m, k. repeat split; try assumption.
  intros j Hj. apply Qlt_leneq. split; [apply Hle; lia|apply Hk4, Hj].
Qed.

Lemma dict_get_in_table (k : nat) :
  (k < 28)%nat ->
  dict_get EMOTION_LABELS (Z.of_nat k) "neutral"
  = nth k (map snd EMOTION_LABELS) "neutral".
Proof.
  intros Hk.
  do 28 (destruct k as [|k]; [reflexivity|]). lia.
Qed.

Lemma dict_get_out_of_table (idx : Z) :
  idx < 0 \/ 28 <= idx -> dict_get EMOTION_LABELS idx "neutral" = "neutral".
Proof.
  intros H. unfold EMOTION_LABELS, dict_get.
  repeat match goal with
         | |- context [?a =? idx] => destruct (Z.eqb_spec a idx); [lia|]
         end.
  reflexivity.
Qed.

Lemma dict_get_label (k : nat) (label : string) :
  In (Z.of_nat k, label) EMOTION_LABELS ->
  dict_get EMOTION_LABELS (Z.of_nat k) "neutral" = label.
Proof.
  intros H.
  assert (Hk : (k < 28)%nat).
  { simpl in H. repeat (destruct H as [H|H]; [inversion H; lia|]). destruct H. }
  rewrite dict_get_in_table by exact Hk.
  simpl in H.
  repeat (destruct H as [H|H];
          [inversion H as [[Hi Hl]];
           replace k with (Z.to_nat (Z.of_nat k)) by lia;
           rewrite <- Hi; reflexivity|]).
  destruct H.
Qed.

(** ** The entry pipeline *)

Section Pipeline.

Context {C : Collaborators}.

(** What [process_entry_logic] does once the classifier has answered and
    the date has parsed: one row is committed, then the window is counted
    (or the window's lower bound falls before 0001-01-01). *)
Lemma process_entry_logic_run (text date_str : string) (d : Date.t)
  (user : User.t) (w : World) (m : Q) (idx : Z) :
  py_max (classify text) = Return m ->
  py_index (classify text) m = Return idx ->
  strptime_ymd date_str = Some d ->
  let emotion := dict_get EMOTION_LABELS idx "neutral" in
  let row := JournalEntry.mk (next_id (map JournalEntry.id (entries w)))
               (User.id user) d (cipher_encrypt text) emotion m in
  process_entry_logic text date_str user w
  = (match date_minus_days d 90 with
     | Raise e => Raise e
     | Return since =>
         Return (mkResponse emotion (round_percent m) (insight_of emotion)
                   (Z.of_nat (List.length
                      (filter (history_where user since) (entries w ++ [row]))))
                   None None)
     end,
     mkWorld (users w) (entries w ++ [row]) (files w)).
Proof.
  intros Hm Hi Hd. unfold process_entry_logic, bind, lift.
  rewrite Hm, Hi, Hd. unfold add_entry, select_entries, ret. simpl.
  destruct (date_minus_days d 90); reflexivity.
Qed.

(** With a date that does not parse nothing is committed: the call raises
    [ValueError] and leaves the world as it was. *)
Lemma process_entry_logic_bad_date (text date_str : string) (user : User.t)
  (w : World) :
  strptime_ymd date_str = None ->
  exists msg, process_entry_logic text date_str user w = (Raise (ValueError msg), w).
Proof.
  intros Hd. unfold process_entry_logic, bind, lift. rewrite Hd.
  destruct (classify text) as [|p ps] eqn:E.
  - simpl. eexists; reflexivity.
  - destruct (argmax_spec (p :: ps)) as (m & k & Hm & Hi & _); [discriminate|].
    rewrite Hm, Hi. eexists; reflexivity.
Qed.

(** C3: on every non-empty probability vector the classifier returns, the
    row that is persisted carries the label of the lowest index holding the
    maximum (every earlier entry is strictly smaller, no entry is larger),
    "neutral" when that index is outside the 28-label table, and its
    emotion_score is the maximum of the vector. *)
Theorem argmax_emotion_and_score (text date_str : string) (d : Date.t)
  (user : User.t) (w : World) :
  classify text <> [] ->
  strptime_ymd date_str = Some d ->
  exists (m : Q) (k : nat) (row : JournalEntry.t),
    In m (classify text)
    /\ (forall j, (j < List.length (classify text))%nat ->
          (nth j (classify text) 0 <= m)%Q)
    /\ (k < List.length (classify text))%nat
    /\ (nth k (classify text) 0 == m)%Q
    /\ (forall j, (j < k)%nat -> (nth j (classify text) 0 < m)%Q)
    /\ entries (snd (process_entry_logic text date_str user w))
       = (entries w ++ [row])%list
    /\ JournalEntry.emotion_score row = m
    /\ (forall label, In (Z.of_nat k, label) EMOTION_LABELS ->
          JournalEntry.emotion_primary row = label)
    /\ ((28 <= k)%nat -> JournalEntry.emotion_primary row = "neutral").
Proof.
  intros Hne Hd.
  destruct (argmax_spec (classify text) Hne)
    as (m & k & Hm & Hi & Hin & Hle & Hk & Hnth & Hfirst).
  pose proof (process_entry_logic_run text date_str d user w m (Z.of_nat k) Hm Hi Hd)
    as Hrun.
  cbv zeta in Hrun.
  eexists m, k, _. rewrite Hrun. simpl.
  repeat split; try assumption; try reflexivity.
  - intros label Hl. apply dict_get_label, Hl.
  - intros Hk28. apply dict_get_out_of_table. lia.
Qed.

(** The pipeline touches neither the accounts nor the files, and adds at
    most one row. *)
Lemma process_entry_logic_frame (text date_str : string) (user : User.t)
  (w : World) :
  users (snd (process_entry_logic text date_str user w)) = users w
  /\ files (snd (process_entry_logic text date_str user w)) = files w
  /\ (entries (snd (process_entry_logic text date_str user w)) = entries w
      \/ exists resp_or_err row,
           process_entry_logic text date_str user w
           = (resp_or_err, mkWorld (users w) (entries w ++ [row]) (files w))).
Proof.
  destruct (strptime_ymd date_str) as [d|] eqn:Hd.
  - destruct (classify text) as [|p ps] eqn:E.
    + unfold process_entry_logic, bind, lift. rewrite E. simpl. tauto.
    + destruct (argmax_spec (classify text)) as (m & k & Hm & Hi & _);
        [rewrite E; discriminate|].
      pose proof (process_entry_logic_run text date_str d user w m _ Hm Hi Hd) as Hrun.
      cbv zeta in Hrun. rewrite Hrun. simpl.
      split; [reflexivity|]. split; [reflexivity|]. right. eauto.
  - destruct (process_entry_logic_bad_date text date_str user w Hd) as (msg & ->).
    simpl. tauto.
Qed.

(** The count the pipeline reports when it returns: the caller's rows, the
    new one included, dated on or after the submitted date minus 90 days. *)
Lemma process_entry_logic_history_count (text date_str : string) (user : User.t)
  (w w' : World) (resp : Response) :
  process_entry_logic text date_str user w = (Return resp, w') ->
  exists (d : Date.t) (row : JournalEntry.t),
    strptime_ymd date_str = Some d
    /\ entries w' = (entries w ++ [row])%list
    /\ JournalEntry.user_id row = User.id user
    /\ JournalEntry.date row = d
    /\ history_count resp
       = Z.of_nat (List.length
           (filter (fun e =>
                      (JournalEntry.user_id e =? User.id user)
                      && (Date.toordinal d - 90 <=? Date.toordinal (JournalEntry.date e)))
              (entries w')))
    /\ In row (filter (fun e =>
                      (JournalEntry.user_id e =? User.id user)
                      && (Date.toordinal d - 90 <=? Date.toordinal (JournalEntry.date e)))
              (entries w'))
    /\ 1 <= history_count resp.
Proof.
  intros Hrun.
  destruct (strptime_ymd date_str) as [d|] eqn:Hd.
  2:{ destruct (process_entry_logic_bad_date text date_str user w Hd) as (msg & H).
      rewrite H in Hrun. discriminate. }
  destruct (classify text) as [|p ps] eqn:E.
  { unfold process_entry_logic, bind, lift in Hrun. rewrite E in Hrun.
    simpl in Hrun. discriminate. }
  destruct (argmax_spec (classify text)) as (m & k & Hm & Hi & _);
    [rewrite E; discriminate|].
  pose proof (process_entry_logic_run text date_str d user w m _ Hm Hi Hd) as Heq.
  cbv zeta in Heq. rewrite Heq in Hrun. clear Heq.
  unfold date_minus_days in Hrun.
  destruct (Date.toordinal d - 90 <? 1) eqn:Hov; [discriminate|].
  inversion Hrun as [[Hresp Hw]]. clear Hrun.
  eexists d, _. simpl.
  assert (Hin : forall l (row : JournalEntry.t),
             JournalEntry.user_id row = User.id user ->
             JournalEntry.date row = d ->
             In row (filter (history_where user (Date.toordinal d - 90))
                       (l ++ [row])%list)).
  { intros l row H1 H2. apply filter_In. split.
    - apply in_or_app. right. now left.
    - unfold history_where. rewrite H1, H2.
      apply andb_true_intro. split; [apply Z.eqb_refl|apply Z.leb_le; lia]. }
  repeat split; try reflexivity.
  - apply (Hin (entries w)); reflexivity.
  - match goal with
    | |- 1 <= Z.of_nat (List.length ?l) =>
        assert (Hl : In (JournalEntry.mk (next_id (map JournalEntry.id (entries w)))
                       (User.id user) d (cipher_encrypt text)
                       (dict_get EMOTION_LABELS (Z.of_nat k) "neutral") m) l)
          by (apply (Hin (entries w)); reflexivity);
        destruct l; [destruct Hl|simpl List.length; lia]
    end.
Qed.

(** ** The temporary file of the audio path *)

Lemma has_file_app (p : string) (fs gs : list (string * string)) :
  existsb (fun f => String.eqb (fst f) p) (fs ++ gs)
  = existsb (fun f => String.eqb (fst f) p) fs
    || existsb (fun f => String.eqb (fst f) p) gs.
Proof. apply existsb_app. Qed.

Lemma write_fresh_file (p c : string) (fs : list (string * string)) :
  existsb (fun f => String.eqb (fst f) p) fs = false ->
  map (fun f => if String.eqb (fst f) p then (p, c) else f) (fs ++ [(p, "")])
  = (fs ++ [(p, c)])%list.
Proof.
  intros H. rewrite map_app. simpl. rewrite String.eqb_refl. f_equal.
  induction fs as [|f fs IH]; simpl in *; [reflexivity|].
  apply orb_false_iff in H. destruct H as [H1 H2].
  rewrite H1, IH by exact H2. reflexivity.
Qed.

Lemma find_fresh_file (p c : string) (fs : list (string * string)) :
  existsb (fun f => String.eqb (fst f) p) fs = false ->
  find (fun f => String.eqb (fst f) p) (fs ++ [(p, c)]) = Some (p, c).
Proof.
  intros H. induction fs as [|f fs IH]; simpl in *.
  - rewrite String.eqb_refl. reflexivity.
  - apply orb_false_iff in H. destruct H as [H1 H2]. rewrite H1. apply IH, H2.
Qed.

Lemma remove_fresh_file (p c : string) (fs : list (string * string)) :
  existsb (fun f => String.eqb (fst f) p) fs = false ->
  filter (fun f => negb (String.eqb (fst f) p)) (fs ++ [(p, c)]) = fs.
Proof.
  intros H. rewrite filter_app. simpl. rewrite String.eqb_refl. simpl.
  rewrite app_nil_r.
  induction fs as [|f fs IH]; simpl in *; [reflexivity|].
  apply orb_false_iff in H. destruct H as [H1 H2].
  rewrite H1. simpl. f_equal. apply IH, H2.
Qed.

(** [NamedTemporaryFile] either finds every drawn name taken, or creates an
    empty file under a name no file had. *)
Lemma NamedTemporaryFile_spec (names : list string) (suffix : string) (w : World) :
  NamedTemporaryFile_from names suffix w
  = (Raise (OSError "No usable temporary file name found"), w)
  \/ exists n,
       In n names
       /\ existsb (fun f => String.eqb (fst f) (tmp_path_of n suffix)) (files w) = false
       /\ NamedTemporaryFile_from names suffix w
          = (Return (tmp_path_of n suffix),
             mkWorld (users w) (entries w)
               (files w ++ [(tmp_path_of n suffix, "")])).
Proof.
  induction names as [|n names IH]; simpl.
  - now left.
  - destruct (existsb _ (files w)) eqn:E.
    + destruct IH as [IH|(n' & Hin & Hf & Heq)]; [now left|].
      right. exists n'. auto.
    + right. exists n. auto.
Qed.

(** [analyze_audio] once the temporary file has its name: a failed copy
    leaves the file behind; otherwise whatever the guarded block returns or
    raises (as a 500) is the result, and the file is gone unless its removal
    failed. *)
Lemma analyze_audio_run (disk : Disk) (upload : UploadFile) (date : string)
  (user : User.t) (w : World) (p : string) :
  NamedTemporaryFile_from (tmp_names disk) (upload_ext upload) w
  = (Return p, mkWorld (users w) (entries w) (files w ++ [(p, "")])) ->
  existsb (fun f => String.eqb (fst f) p) (files w) = false ->
  analyze_audio disk upload date user w
  = match write_error disk with
    | Some msg =>
        (Raise (OSError msg),
         mkWorld (users w) (entries w) (files w ++ [(p, "")]))
    | None =>
        let w1 := mkWorld (users w) (entries w) (files w ++ [(p, file upload)]) in
        let finally_ (w2 : World) :=
          match remove_error disk with
          | Some _ => w2
          | None => mkWorld (users w2) (entries w2) (files w)
          end in
        match whisper_transcribe (file upload) with
        | Raise e => (Raise (HTTPException 500 (str_exn e)), finally_ w1)
        | Return result =>
            let t := strip (match result with Some t => t | None => "" end) in
            if truthy t then
              match process_entry_logic t date user w1 with
              | (Return r, w2) =>
                  (Return (mkResponse (emotion r) (score r) (insight r)
                             (history_count r) (Some true) (Some t)),
                   finally_ w2)
              | (Raise e, w2) =>
                  (Raise (HTTPException 500 (str_exn e)), finally_ w2)
              end
            else
              (Raise (HTTPException 500 "400: Could not transcribe audio."),
               finally_ w1)
        end
    end.
Proof.
  intros Htmp Hfresh.
  unfold analyze_audio. fold (upload_ext upload).
  unfold bind at 1. unfold bind at 1. rewrite Htmp.
  unfold copyfileobj. destruct (write_error disk) as [msg|].
  { reflexivity. }
  unfold bind at 1. unfold ret at 1. cbn [files users entries].
  rewrite (write_fresh_file p (file upload) (files w) Hfresh).
  assert (Hhas : existsb (fun f => String.eqb (fst f) p)
                   (files w ++ [(p, file upload)]) = true).
  { rewrite has_file_app. simpl. rewrite String.eqb_refl.
    apply orb_true_iff. right. reflexivity. }
  unfold try_finally, try_except, bind, read_file, path_exists, os_remove, lift,
    raise, ret.
  cbn [files users entries].
  rewrite (find_fresh_file p (file upload) (files w) Hfresh). cbn [snd].
  destruct (whisper_transcribe (file upload)) as [result|e].
  2:{ cbn [files users entries]. rewrite Hhas.
      destruct (remove_error disk); cbn [files users entries];
        [reflexivity|]. rewrite (remove_fresh_file p (file upload) (files w) Hfresh). reflexivity. }
  cbv zeta.
  destruct (truthy (strip match result with Some t => t | None => "" end)) eqn:Ht;
    cbn [negb].
  2:{ cbn [files users entries]. rewrite Hhas.
      destruct (remove_error disk); cbn [files users entries];
        [reflexivity|]. rewrite (remove_fresh_file p (file upload) (files w) Hfresh). reflexivity. }
  pose proof (process_entry_logic_frame
                (strip match result with Some t => t | None => "" end) date user
                (mkWorld (users w) (entries w) (files w ++ [(p, file upload)])))
    as (_ & Hfiles & _).
  destruct (process_entry_logic _ date user _) as [[r|e] w2];
    cbn [snd files users entries] in *; rewrite Hfiles, Hhas;
    destruct (remove_error disk); cbn [files users entries];
    try reflexivity; rewrite Hfiles;
    rewrite (remove_fresh_file p (file upload) (files w) Hfresh); reflexivity.
Qed.

Lemma analyze_audio_no_name (disk : Disk) (upload : UploadFile) (date : string)
  (user : User.t) (w : World) (e : exn) :
  NamedTemporaryFile_from (tmp_names disk) (upload_ext upload) w = (Raise e, w) ->
  analyze_audio disk upload date user w = (Raise e, w).
Proof.
  intros H. unfold analyze_audio. fold (upload_ext upload).
  unfold bind at 1. unfold bind at 1. rewrite H. reflexivity.
Qed.

(** The audio path stores nothing and raises, never with a 4xx status,
    whenever the transcriber fails, or the transcript strips to the empty
    string, or the date does not parse. *)
Lemma analyze_audio_rejects (disk : Disk) (upload : UploadFile) (date : string)
  (user : User.t) (w : World) :
  (forall result,
     whisper_transcribe (file upload) = Return result ->
     truthy (strip match result with Some t => t | None => "" end) = true ->
     strptime_ymd date = None) ->
  exists e w',
    analyze_audio disk upload date user w = (Raise e, w')
    /\ is_client_error e = false
    /\ users w' = users w
    /\ entries w' = entries w.
Proof.
  intros Hrej.
  assert (Hdone : forall (e : exn) (w' : World),
             is_client_error e = false -> users w' = users w ->
             entries w' = entries w ->
             exists e0 w0, (@Raise Response e, w') = (Raise e0, w0)
               /\ is_client_error e0 = false
               /\ users w0 = users w /\ entries w0 = entries w).
  { intros e w' H1 H2 H3. exists e, w'. auto. }
  destruct (NamedTemporaryFile_spec (tmp_names disk) (upload_ext upload) w)
    as [Hno|(n & _ & Hfresh & Htmp)].
  { rewrite (analyze_audio_no_name _ _ _ _ _ _ Hno). apply Hdone; reflexivity. }
  rewrite (analyze_audio_run disk upload date user w _ Htmp Hfresh).
  destruct (write_error disk) as [msg|]; [apply Hdone; reflexivity|].
  cbv zeta.
  destruct (whisper_transcribe (file upload)) as [result|e] eqn:Hw.
  2:{ destruct (remove_error disk); apply Hdone; reflexivity. }
  destruct (truthy _) eqn:Ht.
  2:{ destruct (remove_error disk); apply Hdone; reflexivity. }
  specialize (Hrej result eq_refl Ht).
  destruct (process_entry_logic_bad_date
              (strip match result with Some t => t | None => "" end) date user
              (mkWorld (users w) (entries w)
                 (files w ++ [(tmp_path_of n (upload_ext upload), file upload)]))
              Hrej) as (msg & ->).
  destruct (remove_error disk); apply Hdone; reflexivity.
Qed.



(** A secured route called with a token the gate accepts: the form is
    checked, then the body runs for the account of the token. *)
Lemma serve_analyze_text_run (utcnow : Z) (token : Token) (text date : string)
  (user : User.t) (w : World) :
  get_current_user utcnow token w = (Return user, w) ->
  serve utcnow (PostAnalyzeText (Some token) text date) w
  = match filter (fun field => negb (truthy (snd field)))
            [("text", text); ("date", date)] with
    | [] =>
        match analyze_text text date user w with
        | (Return response, w') => (Return (Analysis response), w')
        | (Raise e, w') => (Raise e, w')
        end
    | missing => (Raise (RequestValidationError (map fst missing)), w)
    end.
Proof.
  intros Hgate. unfold serve, oauth2_scheme, Form, bind, ret, raise.
  rewrite Hgate.
  destruct (filter _ _); [|reflexivity].
  destruct (analyze_text text date user w) as [[r|e] w']; reflexivity.
Qed.

Lemma serve_analyze_audio_run (utcnow : Z) (token : Token) (disk : Disk)
  (upload : UploadFile) (date : string) (user : User.t) (w : World) :
  get_current_user utcnow token w = (Return user, w) ->
  serve utcnow (PostAnalyzeAudio (Some token) disk upload date) w
  = match filter (fun field => negb (truthy (snd field))) [("date", date)] with
    | [] =>
        match analyze_audio disk upload date user w with
        | (Return response, w') => (Return (Analysis response), w')
        | (Raise e, w') => (Raise e, w')
        end
    | missing => (Raise (RequestValidationError (map fst missing)), w)
    end.
Proof.
  intros Hgate. unfold serve, oauth2_scheme, Form, bind, ret, raise.
  rewrite Hgate.
  destruct (filter _ _); [|reflexivity].
  destruct (analyze_audio disk upload date user w) as [[r|e] w']; reflexivity.
Qed.


(** C10, as the program has it.  The body of the text route has no
    emptiness check of its own: given a date that parses (and lies 90 days or
    more after 0001-01-01) and a classifier that answers, [analyze_text] runs
    the classifier on any text as given, persists one JournalEntry holding
    its ciphertext, and returns a result.  The route as served declares the
    text [Form(...)]: every text that is not empty, the whitespace-only ones
    included, reaches the body and is stored; the empty string is refused as
    a missing field, with nothing classified or stored.  The audio route,
    given a transcript that strips to nothing, raises and persists
    nothing. *)
Theorem analyze_text_has_no_emptiness_check (utcnow : Z) (token : Token)
  (text date_str : string) (d : Date.t) (user : User.t) (w : World) :
  get_current_user utcnow token w = (Return user, w) ->
  strptime_ymd date_str = Some d ->
  90 < Date.toordinal d ->
  (classify text <> [] ->
   exists (resp : Response) (row : JournalEntry.t) (m : Q),
     analyze_text text date_str user w
     = (Return resp, mkWorld (users w) (entries w ++ [row]) (files w))
     /\ (text <> "" ->
         serve utcnow (PostAnalyzeText (Some token) text date_str) w
         = (Return (Analysis resp),
            mkWorld (users w) (entries w ++ [row]) (files w)))
     /\ py_max (classify text) = Return m
     /\ JournalEntry.emotion_score row = m
     /\ JournalEntry.encrypted_content row = cipher_encrypt text
     /\ JournalEntry.user_id row = User.id user
     /\ JournalEntry.date row = d
     /\ emotion resp = JournalEntry.emotion_primary row
     /\ is_audio resp = None)
  /\ (text = "" ->
      serve utcnow (PostAnalyzeText (Some token) text date_str) w
      = (Raise (RequestValidationError ["text"]), w))
  /\ (forall disk upload result,
        whisper_transcribe (file upload) = Return result ->
        strip match result with Some t => t | None => "" end = "" ->
        exists e w',
          serve utcnow (PostAnalyzeAudio (Some token) disk upload date_str) w
          = (Raise e, w')
          /\ entries w' = entries w).
Proof.
  intros Hgate Hd Hord.
  assert (Hdate : exists c date', date_str = String c date').
  { destruct date_str as [|c date']; [discriminate Hd|eauto]. }
  destruct Hdate as (c & date' & Hdate).
  split; [|split].
  - intros Hne.
    destruct (argmax_spec (classify text) Hne) as (m & k & Hm & Hi & _).
    pose proof (process_entry_logic_run text date_str d user w m _ Hm Hi Hd) as Hrun.
    cbv zeta in Hrun. unfold date_minus_days in Hrun.
    destruct (Z.ltb_spec (Date.toordinal d - 90) 1) as [Hlt|_]; [lia|].
    eexists _, _, m. split; [exact Hrun|]. split.
    + intros Htext.
      rewrite (serve_analyze_text_run utcnow token text date_str user w Hgate).
      unfold analyze_text. rewrite Hrun, Hdate.
      destruct text; [contradiction|reflexivity].
    + simpl. repeat split. exact Hm.
  - intros ->.
    rewrite (serve_analyze_text_run utcnow token "" date_str user w Hgate), Hdate.
    reflexivity.
  - intros disk upload result Hw Hblank.
    rewrite (serve_analyze_audio_run utcnow token disk upload date_str user w Hgate).
    rewrite Hdate. cbn [filter snd truthy negb map fst]. rewrite <- Hdate.
    destruct (analyze_audio_rejects disk upload date_str user w)
      as (e & w' & H1 & _ & _ & H4).
    + intros result' Hw' Ht. rewrite Hw in Hw'. inversion Hw'; subst result'.
      rewrite Hblank in Ht. discriminate.
    + rewrite H1. eauto.
Qed.

(** C8: when an analyze operation succeeds, on the text path or on the
    audio path, history_count is the number of the caller's own rows, the
    one just committed included, dated on or after the submitted date minus
    90 days; it is therefore at least 1. *)
Theorem history_count_window (date_str : string) (user : User.t)
  (w w' : World) (resp : Response) :
  (exists text, analyze_text text date_str user w = (Return resp, w'))
  \/ (exists disk upload,
        analyze_audio disk upload date_str user w = (Return resp, w')) ->
  exists (d : Date.t) (row : JournalEntry.t),
    strptime_ymd date_str = Some d
    /\ entries w' = (entries w ++ [row])%list
    /\ JournalEntry.user_id row = User.id user
    /\ JournalEntry.date row = d
    /\ history_count resp
       = Z.of_nat (List.length
           (filter (fun e =>
                      (JournalEntry.user_id e =? User.id user)
                      && (Date.toordinal d - 90 <=? Date.toordinal (JournalEntry.date e)))
              (entries w')))
    /\ In row (filter (fun e =>
                      (JournalEntry.user_id e =? User.id user)
                      && (Date.toordinal d - 90 <=? Date.toordinal (JournalEntry.date e)))
              (entries w'))
    /\ 1 <= history_count resp.
Proof.
  intros [(text & Hrun)|(disk & upload & Hrun)].
  - exact (process_entry_logic_history_count text date_str user w w' resp Hrun).
  - destruct (NamedTemporaryFile_spec (tmp_names disk) (upload_ext upload) w)
      as [Hno|(n & _ & Hfresh & Htmp)].
    { rewrite (analyze_audio_no_name _ _ _ _ _ _ Hno) in Hrun. discriminate. }
    rewrite (analyze_audio_run disk upload date_str user w _ Htmp Hfresh) in Hrun.
    destruct (write_error disk); [discriminate|]. cbv zeta in Hrun.
    destruct (whisper_transcribe (file upload)) as [result|e]; [|discriminate].
    destruct (truthy _); [|discriminate].
    destruct (process_entry_logic _ date_str user _) as [[r|e] w2] eqn:Hp;
      [|discriminate].
    apply process_entry_logic_history_count in Hp.
    destruct Hp as (d & row & H1 & H2 & H3 & H4 & H5 & H6 & H7).
    cbn [entries] in H2.
    assert (Hent : entries w' = entries w2).
    { inversion Hrun. destruct (remove_error disk); reflexivity. }
    assert (Hcount : history_count resp = history_count r).
    { inversion Hrun. reflexivity. }
    exists d, row. rewrite Hent, Hcount. repeat split; assumption.
Qed.

(** X12: Once the upload has been copied, every way out of the guarded block
    goes through the cleanup: the temporary file, created under a name no
    file had and ending in the upload's extension (".webm" by default), is
    removed again; and when the removal itself fails the result or the
    exception of the block is what the caller gets all the same. *)
Lemma temp_file_cleanup (disk : Disk) (upload : UploadFile) (date : string)
  (user : User.t) (w : World) (p : string) :
  NamedTemporaryFile_from (tmp_names disk) (upload_ext upload) w
  = (Return p, mkWorld (users w) (entries w) (files w ++ [(p, "")])) ->
  existsb (fun f => String.eqb (fst f) p) (files w) = false ->
  write_error disk = None ->
  (remove_error disk = None ->
   files (snd (analyze_audio disk upload date user w)) = files w)
  /\ fst (analyze_audio disk upload date user w)
     = fst (analyze_audio (mkDisk (tmp_names disk) None None) upload date user w).
Proof.
  intros Htmp Hfresh Hwr.
  rewrite (analyze_audio_run disk upload date user w p Htmp Hfresh).
  rewrite (analyze_audio_run (mkDisk (tmp_names disk) None None) upload date
             user w p Htmp Hfresh).
  rewrite Hwr. cbn [write_error remove_error]. cbv zeta.
  split.
  - intros Hrm. rewrite Hrm.
    destruct (whisper_transcribe (file upload)) as [result|e]; [|reflexivity].
    destruct (truthy _); [|reflexivity].
    destruct (process_entry_logic _ date user _) as [[r|e] w2]; reflexivity.
  - destruct (whisper_transcribe (file upload)) as [result|e]; [|reflexivity].
    destruct (truthy _); [|reflexivity].
    destruct (process_entry_logic _ date user _) as [[r|e] w2]; reflexivity.
Qed.

(** C9, where the program departs from it: when copying the upload into the
    temporary file raises, the function is left before its try/finally is
    entered; the exception reaches the caller and the temporary file is
    still on disk afterwards. *)
Theorem temp_file_left_when_copy_fails (disk : Disk) (upload : UploadFile)
  (date : string) (user : User.t) (w : World) (p msg : string) :
  NamedTemporaryFile_from (tmp_names disk) (upload_ext upload) w
  = (Return p, mkWorld (users w) (entries w) (files w ++ [(p, "")])) ->
  existsb (fun f => String.eqb (fst f) p) (files w) = false ->
  write_error disk = Some msg ->
  exists w',
    analyze_audio disk upload date user w = (Raise (OSError msg), w')
    /\ existsb (fun f => String.eqb (fst f) p) (files w') = true.
Proof.
  intros Htmp Hfresh Hwr.
  rewrite (analyze_audio_run disk upload date user w p Htmp Hfresh), Hwr.
  eexists. split; [reflexivity|]. cbn [files].
  rewrite has_file_app. simpl. rewrite String.eqb_refl.
  apply orb_true_iff. right. reflexivity.
Qed.

(** C2, where the program departs from it: a transcript that strips to the
    empty string makes the guarded block raise the 400 "Could not transcribe
    audio.", which the block's own handler catches and raises again as a
    500; the caller gets a server error, not a client error.  Nothing is
    persisted. *)
Theorem blank_transcript_raises_server_error (disk : Disk) (upload : UploadFile)
  (date : string) (user : User.t) (w : World) (p : string)
  (result : option string) :
  NamedTemporaryFile_from (tmp_names disk) (upload_ext upload) w
  = (Return p, mkWorld (users w) (entries w) (files w ++ [(p, "")])) ->
  existsb (fun f => String.eqb (fst f) p) (files w) = false ->
  write_error disk = None ->
  whisper_transcribe (file upload) = Return result ->
  strip match result with Some t => t | None => "" end = "" ->
  exists w',
    analyze_audio disk upload date user w
    = (Raise (HTTPException 500 "400: Could not transcribe audio."), w')
    /\ is_client_error (HTTPException 500 "400: Could not transcribe audio.") = false
    /\ entries w' = entries w.
Proof.
  intros Htmp Hfresh Hwr Hres Hblank.
  rewrite (analyze_audio_run disk upload date user w p Htmp Hfresh), Hwr, Hres.
  cbv zeta. rewrite Hblank. cbn [truthy].
  eexists. split; [reflexivity|]. split; [reflexivity|].
  destruct (remove_error disk); reflexivity.
Qed.

End Pipeline.

(** ** The history endpoint *)

Section History.

(** Rows in ascending date order. *)
Let date_le (a b : JournalEntry.t) : Prop :=
  Date.toordinal (JournalEntry.date a) <= Date.toordinal (JournalEntry.date b).

Lemma insert_by_date_perm (e : JournalEntry.t) (l : list JournalEntry.t) :
  Permutation (e :: l) (insert_by_date e l).
Proof.
  induction l as [|x l IH]; simpl.
  - apply Permutation_refl.
  - destruct (Date.ltb _ _).
    + apply Permutation_refl.
    + eapply Permutation_trans; [apply perm_swap|].
      apply perm_skip, IH.
Qed.

Lemma insert_by_date_sorted (e : JournalEntry.t) (l : list JournalEntry.t) :
  StronglySorted date_le l -> StronglySorted date_le (insert_by_date e l).
Proof.
  induction 1 as [|x l Hs IH Hx]; simpl.
  - constructor; constructor.
  - unfold Date.ltb.
    destruct (Z.ltb_spec (Date.toordinal (JournalEntry.date e))
                (Date.toordinal (JournalEntry.date x))) as [Hlt|Hge].
    + constructor; [constructor; assumption|].
      constructor; [unfold date_le; lia|].
      eapply Forall_impl; [|exact Hx].
      intros y Hy. unfold date_le in *. lia.
    + constructor; [exact IH|].
      eapply Permutation_Forall; [apply insert_by_date_perm|].
      constructor; [unfold date_le; lia|exact Hx].
Qed.

Lemma order_by_date_spec (l : list JournalEntry.t) :
  Permutation l (order_by_date l) /\ StronglySorted date_le (order_by_date l).
Proof.
  unfold order_by_date.
  assert (H : forall acc,
             StronglySorted date_le acc ->
             Permutation (acc ++ l)
               (fold_left (fun acc e => insert_by_date e acc) l acc)
             /\ StronglySorted date_le
                  (fold_left (fun acc e => insert_by_date e acc) l acc)).
  { induction l as [|e l IH]; intros acc Hacc; simpl.
    - rewrite app_nil_r. split; [apply Permutation_refl|exact Hacc].
    - destruct (IH (insert_by_date e acc) (insert_by_date_sorted e acc Hacc))
        as [Hp Hs].
      split; [|exact Hs].
      eapply Permutation_trans; [|exact Hp].
      eapply Permutation_trans; [apply Permutation_sym, Permutation_middle|].
      apply (Permutation_app_tail l (insert_by_date_perm e acc)). }
  destruct (H [] (SSorted_nil _)) as [Hp Hs]. split; assumption.
Qed.

(** C1: [get_history] is scoped to the caller.  The rows it reports are
    exactly the stored entries whose owner is the caller, so never an entry
    of another account; they come in ascending date order; the stored state
    is returned as it was; and entries that any other account adds
    afterwards leave the caller's list unchanged. *)
Theorem get_history_scoped (A : User.t) (w : World) :
  exists rows : list JournalEntry.t,
    get_history A w
    = (Return (map (fun e => (JournalEntry.date e, JournalEntry.emotion_primary e))
                 rows), w)
    /\ (forall e, In e rows <->
                  In e (entries w) /\ JournalEntry.user_id e = User.id A)
    /\ Permutation
         (filter (fun e => JournalEntry.user_id e =? User.id A) (entries w)) rows
    /\ StronglySorted
         (fun a b => Date.toordinal (JournalEntry.date a)
                     <= Date.toordinal (JournalEntry.date b)) rows
    /\ (forall (B : User.t) (theirs : list JournalEntry.t),
          User.id B <> User.id A ->
          Forall (fun e => JournalEntry.user_id e = User.id B) theirs ->
          fst (get_history A
                 (mkWorld (users w) (entries w ++ theirs) (files w)))
          = fst (get_history A w)).
Proof.
  set (mine := filter (fun e => JournalEntry.user_id e =? User.id A) (entries w)).
  destruct (order_by_date_spec mine) as [Hp Hs].
  exists (order_by_date mine). split; [reflexivity|].
  split; [|split; [exact Hp|split; [exact Hs|]]].
  - intros e. split.
    + intros Hin.
      apply (Permutation_in _ (Permutation_sym Hp)) in Hin.
      apply filter_In in Hin. destruct Hin as [H1 H2].
      split; [exact H1|]. apply Z.eqb_eq, H2.
    + intros [H1 H2]. apply (Permutation_in _ Hp).
      apply filter_In. split; [exact H1|]. apply Z.eqb_eq, H2.
  - intros B theirs Hne Hall.
    unfold get_history, bind, select_entries, ret. simpl.
    rewrite filter_app.
    replace (filter (fun e => JournalEntry.user_id e =? User.id A) theirs)
      with (@nil JournalEntry.t); [rewrite app_nil_r; reflexivity|].
    symmetry. induction Hall as [|x l Hx _ IH]; simpl; [reflexivity|].
    rewrite Hx. destruct (Z.eqb_spec (User.id B) (User.id A)); [contradiction|].
    exact IH.
Qed.

End History.

(** ** Accounts and tokens *)

Section Accounts.

Context {C : Collaborators}.

Lemma first_filter_In {A} (f : A -> bool) (l : list A) (x : A) :
  first (filter f l) = Some x -> In x l /\ f x = true.
Proof.
  induction l as [|y l IH]; simpl; [discriminate|].
  destruct (f y) eqn:E; simpl.
  - intros H; inversion H; subst. split; [now left|exact E].
  - intros H. destruct (IH H). split; [now right|assumption].
Qed.

Lemma first_filter_None {A} (f : A -> bool) (l : list A) :
  first (filter f l) = None <-> forall x, In x l -> f x = false.
Proof.
  induction l as [|y l IH]; simpl.
  - split; [intros _ x []|reflexivity].
  - destruct (f y) eqn:E; simpl.
    + split; [discriminate|]. intros H. rewrite (H y) in E by now left.
      discriminate.
    + rewrite IH. split.
      * intros H x [<-|Hx]; [exact E|apply H, Hx].
      * intros H x Hx. apply H. now right.
Qed.

Lemma existsb_first_filter {A} (f : A -> bool) (l : list A) :
  existsb f l = match first (filter f l) with Some _ => true | None => false end.
Proof.
  induction l as [|x l IH]; simpl; [reflexivity|].
  destruct (f x); simpl; [reflexivity|exact IH].
Qed.

Lemma existsb_none {A} (f : A -> bool) (l : list A) :
  existsb f l = false <-> forall x, In x l -> f x = false.
Proof.
  rewrite existsb_first_filter, <- first_filter_None.
  destruct (first (filter f l)); split; congruence.
Qed.


(** [signup] looks for the username first: the row [first()] returns is the
    account of that username when there is one, and an account holding the
    email otherwise. *)
Lemma signup_run (user_data : UserCreate.t) (w : World) :
  signup user_data w
  = if existsb (fun u => String.eqb (User.username u)
                           (UserCreate.username user_data)) (users w)
    then (Raise (HTTPException 400 "Username already taken"), w)
    else if existsb (fun u => String.eqb (User.email u)
                                (UserCreate.email user_data)) (users w)
    then (Raise (HTTPException 400 "Email already registered"), w)
    else
      (Return "User created successfully",
       mkWorld
         (users w
          ++ [User.mk (next_id (map User.id (users w)))
                (UserCreate.username user_data) (UserCreate.email user_data)
                (get_password_hash (UserCreate.password user_data))])
         (entries w) (files w)).
Proof.
  unfold signup, bind, select_users_or, add_user, ret, raise. cbn [fst snd].
  set (fu := fun u : User.t =>
               String.eqb (User.username u) (UserCreate.username user_data)).
  set (fe := fun u : User.t =>
               String.eqb (User.email u) (UserCreate.email user_data)).
  rewrite (existsb_first_filter fu), (existsb_first_filter fe).
  destruct (filter fu (users w)) as [|x xs] eqn:Fu.
  - assert (Hnone : forall a, In a (users w) -> fu a = false).
    { intros a Ha. destruct (fu a) eqn:E; [|reflexivity].
      assert (Hin : In a (filter fu (users w))) by (apply filter_In; auto).
      rewrite Fu in Hin. destruct Hin. }
    assert (Hext : filter (fun u => fe u && negb (fu u)) (users w)
                   = filter fe (users w)).
    { apply filter_ext_in. intros a Ha. rewrite (Hnone a Ha). apply andb_true_r. }
    change ([] ++ ?l)%list with l. subst fu fe. cbv beta in *. rewrite Hext.
    destruct (first (filter _ (users w))) as [ex|] eqn:E; [|reflexivity].
    apply first_filter_In in E. destruct E as [Hin E].
    rewrite (Hnone ex Hin), E. reflexivity.
  - assert (Hx : fu x = true).
    { assert (Hin : In x (filter fu (users w))) by (rewrite Fu; now left).
      apply filter_In in Hin. exact (proj2 Hin). }
    change (first ((x :: xs) ++ ?l)%list) with (Some x).
    unfold fu in Hx. cbv beta iota. rewrite Hx. reflexivity.
Qed.


Lemma timegm_expire (t0 : Z) :
  timegm (t0 + timedelta_minutes ACCESS_TOKEN_EXPIRE_MINUTES)
  = timegm t0 + 24 * 60 * 60.
Proof.
  unfold timegm, timedelta_minutes, ACCESS_TOKEN_EXPIRE_MINUTES.
  replace (t0 + 60 * 24 * 60 * 1000000) with (t0 + (24 * 60 * 60) * 1000000) by lia.
  apply Z.div_add. lia.
Qed.

(** What the token gate does with a token that carries an expiry. *)
Lemma get_current_user_run (utcnow : Z) (token : Token) (e : Z) (w : World) :
  exp (payload token) = Some e ->
  get_current_user utcnow token w
  = (if negb (String.eqb (signature token) (hs256 SECRET_KEY (payload token)))
     then Raise credentials_exception
     else if e <? timegm utcnow then Raise credentials_exception
     else match sub (payload token) with
          | None => Raise credentials_exception
          | Some username =>
              match first (filter (fun u => String.eqb (User.username u) username)
                             (users w)) with
              | None => Raise credentials_exception
              | Some user => Return user
              end
          end, w).
Proof.
  intros He.
  unfold get_current_user, bind, try_except, lift, jwt_decode, select_users,
    raise, ret.
  rewrite He.
  destruct (negb _); [reflexivity|].
  destruct (e <? timegm utcnow); [reflexivity|].
  destruct (sub (payload token)) as [name|]; [|reflexivity].
  cbn [fst snd]. destruct (first _); reflexivity.
Qed.

(** C6, as the program has it: a token that carries an expiry is accepted
    exactly when its signature verifies under the process secret and the
    clock, in whole seconds, is not past expires_at (the second expires_at
    itself still counts), and the gate lets it through exactly when, on top
    of that, an account of the subject's username exists; expires_at is the
    second of issuance plus the configured 24 hours; a token from [login]
    resolves, by a lookup of the username in the accounts as they are at
    each call, to the account that logged in, and is refused once the clock
    is past expires_at. *)
Theorem session_token_validity :
  (forall (token : Token) (utcnow e : Z),
     exp (payload token) = Some e ->
     ((exists claims, jwt_decode token SECRET_KEY utcnow = Return claims)
      <-> (signature token = hs256 SECRET_KEY (payload token)
           /\ timegm utcnow <= e)))
  /\ (forall (token : Token) (utcnow e : Z) (name : string) (w : World),
        exp (payload token) = Some e ->
        sub (payload token) = Some name ->
        ((exists user, get_current_user utcnow token w = (Return user, w))
         <-> (signature token = hs256 SECRET_KEY (payload token)
              /\ timegm utcnow <= e
              /\ exists user,
                   first (filter (fun u => String.eqb (User.username u) name)
                            (users w)) = Some user)))
  /\ (forall (t0 : Z) (name password : string) (w w' : World) (tok : Token),
        login t0 name password w = (Return tok, w') ->
        w' = w
        /\ exp (payload tok) = Some (timegm t0 + 24 * 60 * 60)
        /\ exists user,
             first (filter (fun u => String.eqb (User.username u) name) (users w))
             = Some user
             /\ sub (payload tok) = Some name
             /\ get_current_user t0 tok w = (Return user, w)
             /\ (forall utcnow (w2 : World),
                   timegm utcnow <= timegm t0 + 24 * 60 * 60 ->
                   get_current_user utcnow tok w2
                   = (match first (filter
                                (fun u => String.eqb (User.username u) name)
                                (users w2)) with
                      | Some account => Return account
                      | None => Raise credentials_exception
                      end, w2))
             /\ (forall utcnow (w2 : World),
                   timegm t0 + 24 * 60 * 60 < timegm utcnow ->
                   get_current_user utcnow tok w2
                   = (Raise credentials_exception, w2))).
Proof.
  split; [|split].
  - intros token utcnow e He. unfold jwt_decode. rewrite He.
    destruct (String.eqb_spec (signature token) (hs256 SECRET_KEY (payload token)))
      as [Hs|Hs]; cbn [negb].
    + destruct (Z.ltb_spec e (timegm utcnow)) as [Hlt|Hge].
      * split; [intros (c & Hc); discriminate|intros [_ H]; lia].
      * split; [intros _; split; [exact Hs|lia]|intros _; eexists; reflexivity].
    + split; [intros (c & Hc); discriminate|intros [H _]; contradiction].
  - intros token utcnow e name w He Hsub.
    rewrite (get_current_user_run utcnow token e w He), Hsub.
    destruct (String.eqb_spec (signature token) (hs256 SECRET_KEY (payload token)))
      as [Hs|Hs]; cbn [negb].
    + destruct (Z.ltb_spec e (timegm utcnow)) as [Hlt|Hge].
      * split; [intros (u & Hu); discriminate|intros (_ & H & _); lia].
      * destruct (first _) as [user|].
        -- split; [intros _; split; [exact Hs|split; [lia|eauto]]|eauto].
        -- split; [intros (u & Hu); discriminate
                  |intros (_ & _ & u & Hu); discriminate].
    + split; [intros (u & Hu); discriminate|intros (H & _); contradiction].
  - intros t0 name password w w' tok Hlogin.
    unfold login, bind, select_users, ret, raise in Hlogin. cbn [fst snd] in Hlogin.
    destruct (first (filter _ (users w))) as [user|] eqn:Hfirst; [|discriminate].
    destruct (negb (verify_password password (User.hashed_password user)));
      [discriminate|].
    inversion Hlogin as [[Htok Hw]]. clear Hlogin. subst w'. clear Htok.
    assert (Hname : User.username user = name).
    { apply first_filter_In in Hfirst. destruct Hfirst as [_ H].
      apply String.eqb_eq, H. }
    rewrite Hname.
    assert (Hexp : exp (payload (create_access_token (mkClaims (Some name) None) t0))
                   = Some (timegm t0 + 24 * 60 * 60)).
    { unfold create_access_token, jwt_encode. cbn [payload exp].
      rewrite timegm_expire. reflexivity. }
    assert (Hgood : forall utcnow (w2 : World),
              timegm utcnow <= timegm t0 + 24 * 60 * 60 ->
              get_current_user utcnow
                (create_access_token (mkClaims (Some name) None) t0) w2
              = (match first (filter
                           (fun u => String.eqb (User.username u) name)
                           (users w2)) with
                 | Some account => Return account
                 | None => Raise credentials_exception
                 end, w2)).
    { intros utcnow w2 Hle.
      rewrite (get_current_user_run utcnow _ _ w2 Hexp).
      unfold create_access_token, jwt_encode. cbn [signature payload sub].
      rewrite String.eqb_refl. cbn [negb].
      destruct (Z.ltb_spec (timegm t0 + 24 * 60 * 60) (timegm utcnow)); [lia|].
      destruct (first _); reflexivity. }
    split; [reflexivity|]. split; [exact Hexp|].
    exists user. split; [reflexivity|]. split; [reflexivity|].
    split; [|split].
    + rewrite Hgood by lia. rewrite Hfirst. reflexivity.
    + exact Hgood.
    + intros utcnow w2 Hlt.
      rewrite (get_current_user_run utcnow _ _ w2 Hexp).
      destruct (negb _); [reflexivity|].
      destruct (Z.ltb_spec (timegm t0 + 24 * 60 * 60) (timegm utcnow)); [|lia].
      reflexivity.
Qed.


End Accounts.

(** ** The program on concrete inputs *)

(** The worked example of the specification: "I am so angry today" on
    2024-01-15 with the classifier peaking at "anger" with 0.87. *)
Example angry_today :
  fst (analyze_text (C := Mock.collaborators) "I am so angry today" "2024-01-15"
         Mock.alice Mock.registered)
  = Return (mkResponse "anger" (8700 # 100)
              "Try the physiological sigh: 2 short inhales, 1 long exhale to reset autonomic nervous system."
              1 None None).
Proof. reflexivity. Qed.

(** Two accounts, each with entries of its own: the histories do not mix. *)
Lemma get_history_scoped_witness :
  exists rows,
    fst (get_history Mock.alice Mock.journals)
    = Return (map (fun e => (JournalEntry.date e, JournalEntry.emotion_primary e))
                rows)
    /\ Forall (fun e => JournalEntry.user_id e = 1) rows
    /\ fst (get_history Mock.alice Mock.journals)
       = Return [ (Date.mk 2024 1 15, "neutral"); (Date.mk 2024 3 10, "anger") ]
    /\ snd (get_history Mock.alice Mock.journals) = Mock.journals.
Proof.
  destruct (get_history_scoped Mock.alice Mock.journals) as (rows & H1 & H2 & _).
  exists rows. split; [rewrite H1; reflexivity|].
  split; [|split; reflexivity].
  apply Forall_forall. intros e He. apply H2 in He. exact (proj2 He).
Defined.

(** A tie for the maximum resolves to the lower position. *)
Lemma argmax_emotion_and_score_witness :
  exists (m : Q) (k : nat),
    In m Mock.tied
    /\ (nth k Mock.tied 0 == m)%Q
    /\ (forall j, (j < k)%nat -> (nth j Mock.tied 0 < m)%Q)
    /\ fst (analyze_text (C := Mock.collaborators) "what a day" "2024-01-05"
              Mock.bob Mock.registered)
       = Return (mkResponse "excitement" (9000 # 100)
                   "Savoring: Write down 3 specific sensory details about this feeling to strengthen neural pathways."
                   1 None None).
Proof.
  destruct (argmax_emotion_and_score (C := Mock.collaborators)
              "what a day" "2024-01-05" (Date.mk 2024 1 5) Mock.bob Mock.registered)
    as (m & k & row & H1 & _ & _ & H4 & H5 & _).
  - vm_compute. discriminate.
  - reflexivity.
  - exists m, k. repeat split; assumption || reflexivity.
Defined.

(** An argmax past the end of the table is reported as "neutral". *)
Example overlong_vector_is_neutral :
  py_index Mock.overlong (3 # 4) = Return 29
  /\ fst (analyze_text (C := Mock.collaborators) "beyond words" "2024-01-05"
            Mock.bob Mock.registered)
     = Return (mkResponse "neutral" (7500 # 100) "Take a moment to breathe."
                 1 None None).
Proof. split; reflexivity. Qed.


(** The username decides in both orders of registration: Alice's username
    with Bob's email, and Bob's username with Alice's email, are both
    answered "Username already taken". *)
Example register_username_decides :
  fst (signup (C := Mock.collaborators)
         (UserCreate.mk "alice" "bob@example.org" "s3cret") Mock.registered)
  = Raise (HTTPException 400 "Username already taken")
  /\ fst (signup (C := Mock.collaborators)
            (UserCreate.mk "bob" "alice@example.org" "s3cret") Mock.registered)
     = Raise (HTTPException 400 "Username already taken").
Proof. split; reflexivity. Qed.


(** C6 as stated fails: a token issued at time 0 expires at second 86400;
    half a second later the clock is past expires_at, yet the token is
    still accepted. *)
Lemma token_after_expiry_counterexample :
  ~ (forall (C : Collaborators) (token : Token) (utcnow e : Z),
       exp (payload token) = Some e ->
       ((exists claims, jwt_decode token SECRET_KEY utcnow = Return claims)
        <-> (signature token = hs256 SECRET_KEY (payload token)
             /\ utcnow < e * 1000000))).
Proof.
  intros H.
  pose proof (H Mock.collaborators
                (create_access_token (C := Mock.collaborators)
                   (mkClaims (Some "alice") None) 0)
                86400500000 86400 eq_refl) as [Hacc _].
  destruct Hacc as [_ Hlt]; [|lia].
  eexists. reflexivity.
Qed.

(** The gate itself lets that token through, and refuses it from the next
    whole second on. *)
Example gate_at_the_boundary :
  let tok := create_access_token (C := Mock.collaborators)
               (mkClaims (Some "alice") None) 0 in
  exp (payload tok) = Some 86400
  /\ fst (get_current_user (C := Mock.collaborators) 86400500000 tok Mock.registered)
     = Return Mock.alice
  /\ fst (get_current_user (C := Mock.collaborators) 86401000000 tok Mock.registered)
     = Raise credentials_exception.
Proof. repeat split. Qed.

Lemma session_token_validity_witness :
  exists tok,
    login (C := Mock.collaborators) 1704067200250000 "alice" "wonderland"
      Mock.registered = (Return tok, Mock.registered)
    /\ exp (payload tok) = Some 1704153600
    /\ get_current_user (C := Mock.collaborators) 1704067200250000 tok Mock.journals
       = (Return Mock.alice, Mock.journals)
    /\ get_current_user (C := Mock.collaborators) 1704153601000000 tok Mock.journals
       = (Raise credentials_exception, Mock.journals).
Proof.
  destruct (login (C := Mock.collaborators) 1704067200250000 "alice" "wonderland"
              Mock.registered) as [[tok|e] w'] eqn:Hlogin;
    [|vm_compute in Hlogin; discriminate].
  destruct (session_token_validity (C := Mock.collaborators)) as (_ & _ & Hb).
  destruct (Hb 1704067200250000 "alice" "wonderland"
              Mock.registered w' tok Hlogin)
    as (Hw & Hexp & user & Hfirst & Hsub & Hnow & Hgood & Hbad).
  exists tok. subst w'. split; [reflexivity|].
  split; [rewrite Hexp; reflexivity|]. split.
  - rewrite Hgood by (vm_compute; discriminate). reflexivity.
  - apply Hbad. reflexivity.
Defined.



(** An empty date never reaches the parser: the request is refused as a
    validation error that names the field. *)
Example empty_date_is_a_validation_error :
  serve (C := Mock.collaborators) 0
    (PostAnalyzeText
       (Some (create_access_token (C := Mock.collaborators)
                (mkClaims (Some "alice") None) 0))
       "I am so angry today" "") Mock.registered
  = (Raise (RequestValidationError ["date"]), Mock.registered)
  /\ is_client_error (RequestValidationError ["date"]) = true.
Proof. split; reflexivity. Qed.

(** A day written in the digits of another script parses: 2024-01-1 and
    ARABIC-INDIC DIGIT FIVE is 15 January 2024. *)
Example date_in_other_digits :
  strptime_ymd (C := Mock.collaborators)
    ("2024-01-1" ++ String (ascii_of_nat 217) (String (ascii_of_nat 165) ""))
  = Some (Date.mk 2024 1 15).
Proof. reflexivity. Qed.

Lemma history_count_window_witness :
  exists resp w',
    analyze_text (C := Mock.collaborators) "quiet morning" "2024-04-01"
      Mock.alice Mock.journals = (Return resp, w')
    /\ history_count resp = 3
    /\ 1 <= history_count resp.
Proof.
  destruct (analyze_text (C := Mock.collaborators) "quiet morning" "2024-04-01"
              Mock.alice Mock.journals) as [[resp|e] w'] eqn:Hrun;
    [|vm_compute in Hrun; discriminate].
  destruct (history_count_window (C := Mock.collaborators)
              "2024-04-01" Mock.alice Mock.journals w' resp
              (or_introl (ex_intro _ "quiet morning" Hrun)))
    as (d & row & _ & _ & _ & _ & _ & _ & Hone).
  exists resp, w'. split; [reflexivity|]. split; [|exact Hone].
  vm_compute in Hrun. inversion Hrun. reflexivity.
Defined.

(** The window has a lower bound only: an entry dated 91 days before the
    submitted one is not counted. *)
Example history_count_outside_window :
  fst (analyze_text (C := Mock.collaborators) "quiet morning" "2024-04-05"
         Mock.alice Mock.journals)
  = Return (mkResponse "neutral" (8700 # 100) "Take a moment to breathe."
              3 None None)
  /\ fst (analyze_text (C := Mock.collaborators) "quiet morning" "2024-04-15"
            Mock.alice Mock.journals)
     = Return (mkResponse "neutral" (8700 # 100) "Take a moment to breathe."
                 2 None None).
Proof. split; reflexivity. Qed.

(** C10 as stated fails: with a token the gate accepts and a date that
    parses, the text route called with the empty string classifies nothing
    and persists nothing; the request is refused as a validation error. *)
Lemma empty_text_counterexample :
  ~ (forall (C : Collaborators) (utcnow : Z) (token : Token)
            (text date_str : string) (d : Date.t) (user : User.t) (w : World),
       get_current_user utcnow token w = (Return user, w) ->
       classify text <> [] ->
       strptime_ymd date_str = Some d ->
       90 < Date.toordinal d ->
       exists resp row,
         serve utcnow (PostAnalyzeText (Some token) text date_str) w
         = (Return (Analysis resp),
            mkWorld (users w) (entries w ++ [row]) (files w))).
Proof.
  intros H.
  destruct (H Mock.collaborators 0
              (create_access_token (C := Mock.collaborators)
                 (mkClaims (Some "alice") None) 0)
              "" "2024-01-15" (Date.mk 2024 1 15) Mock.alice Mock.registered)
    as (resp & row & Hrun); try reflexivity.
  { vm_compute. discriminate. }
  vm_compute in Hrun. discriminate.
Qed.

Lemma analyze_text_has_no_emptiness_check_witness :
  (exists resp row,
     serve (C := Mock.collaborators) 0
       (PostAnalyzeText
          (Some (create_access_token (C := Mock.collaborators)
                   (mkClaims (Some "alice") None) 0))
          "   " "2024-01-15") Mock.registered
     = (Return (Analysis resp), mkWorld (users Mock.registered) [row] [])
     /\ JournalEntry.encrypted_content row
        = @cipher_encrypt Mock.collaborators "   ")
  /\ serve (C := Mock.collaborators) 0
       (PostAnalyzeText
          (Some (create_access_token (C := Mock.collaborators)
                   (mkClaims (Some "alice") None) 0))
          "" "2024-01-15") Mock.registered
     = (Raise (RequestValidationError ["text"]), Mock.registered)
  /\ (exists e w',
        serve (C := Mock.collaborators) 0
          (PostAnalyzeAudio
             (Some (create_access_token (C := Mock.collaborators)
                      (mkClaims (Some "alice") None) 0))
             Mock.disk_ok (mkUpload (Some "memo.ogg") "   ") "2024-01-15")
          Mock.registered = (Raise e, w')
        /\ entries w' = []).
Proof.
  assert (Hd : strptime_ymd (C := Mock.collaborators) "2024-01-15"
               = Some (Date.mk 2024 1 15)) by reflexivity.
  assert (Ho : 90 < Date.toordinal (Date.mk 2024 1 15)) by reflexivity.
  split; [|split].
  - destruct (analyze_text_has_no_emptiness_check (C := Mock.collaborators) 0
                (create_access_token (C := Mock.collaborators)
                   (mkClaims (Some "alice") None) 0)
                "   " "2024-01-15" (Date.mk 2024 1 15) Mock.alice Mock.registered
                eq_refl Hd Ho) as (H & _).
    destruct H as (resp & row & m & _ & Hrun & _ & _ & Henc & _);
      [vm_compute; discriminate|].
    exists resp, row. split; [apply Hrun; discriminate|exact Henc].
  - destruct (analyze_text_has_no_emptiness_check (C := Mock.collaborators) 0
                (create_access_token (C := Mock.collaborators)
                   (mkClaims (Some "alice") None) 0)
                "" "2024-01-15" (Date.mk 2024 1 15) Mock.alice Mock.registered
                eq_refl Hd Ho) as (_ & H & _).
    apply H. reflexivity.
  - destruct (analyze_text_has_no_emptiness_check (C := Mock.collaborators) 0
                (create_access_token (C := Mock.collaborators)
                   (mkClaims (Some "alice") None) 0)
                "" "2024-01-15" (Date.mk 2024 1 15) Mock.alice Mock.registered
                eq_refl Hd Ho) as (_ & _ & Haudio).
    apply (Haudio Mock.disk_ok (mkUpload (Some "memo.ogg") "   ") (Some "   "));
      reflexivity.
Defined.

(** The failing input of C2: an upload whose transcript is three spaces. *)
Lemma blank_transcript_raises_server_error_witness :
  analyze_audio (C := Mock.collaborators) Mock.disk_ok
    (mkUpload (Some "memo.ogg") "   ") "2024-01-15" Mock.alice Mock.registered
  = (Raise (HTTPException 500 "400: Could not transcribe audio."), Mock.registered)
  /\ is_client_error (HTTPException 500 "400: Could not transcribe audio.") = false.
Proof.
  destruct (blank_transcript_raises_server_error (C := Mock.collaborators)
              Mock.disk_ok (mkUpload (Some "memo.ogg") "   ") "2024-01-15"
              Mock.alice Mock.registered "/tmp/tmpa1b2c3d4.ogg" (Some "   "))
    as (w' & Hrun & Hc & _); try reflexivity.
  split; [|exact Hc].
  rewrite Hrun. f_equal. vm_compute in Hrun. inversion Hrun. reflexivity.
Defined.

(** The failing input of C9: an upload that arrives when the disk is full. *)
Lemma temp_file_left_when_copy_fails_witness :
  exists w',
    analyze_audio (C := Mock.collaborators) Mock.disk_full
      (mkUpload (Some "memo.ogg") "dear diary") "2024-01-15" Mock.alice
      Mock.registered
    = (Raise (OSError "[Errno 28] No space left on device"), w')
    /\ files Mock.registered = []
    /\ files w' = [("/tmp/tmpa1b2c3d4.ogg", "")].
Proof.
  destruct (temp_file_left_when_copy_fails (C := Mock.collaborators)
              Mock.disk_full (mkUpload (Some "memo.ogg") "dear diary")
              "2024-01-15" Mock.alice Mock.registered "/tmp/tmpa1b2c3d4.ogg"
              "[Errno 28] No space left on device")
    as (w' & Hrun & _); try reflexivity.
  exists w'. split; [exact Hrun|]. split; [reflexivity|].
  vm_compute in Hrun. inversion Hrun. reflexivity.
Defined.

(** With the disk in order the same upload is processed and the temporary
    file is gone afterwards; a removal that fails changes nothing but the
    file staying. *)
Example temp_file_removed_on_success :
  files (snd (analyze_audio (C := Mock.collaborators) Mock.disk_ok
                (mkUpload None "dear diary") "2024-01-15" Mock.alice
                Mock.registered)) = []
  /\ fst (analyze_audio (C := Mock.collaborators)
            (mkDisk ["a1b2c3d4"] None (Some "[Errno 13] Permission denied"))
            (mkUpload None "dear diary") "2024-01-15" Mock.alice Mock.registered)
     = fst (analyze_audio (C := Mock.collaborators) Mock.disk_ok
              (mkUpload None "dear diary") "2024-01-15" Mock.alice
              Mock.registered)
  /\ files (snd (analyze_audio (C := Mock.collaborators)
                   (mkDisk ["a1b2c3d4"] None (Some "[Errno 13] Permission denied"))
                   (mkUpload None "dear diary") "2024-01-15" Mock.alice
                   Mock.registered))
     = [("/tmp/tmpa1b2c3d4.webm", "dear diary")].
Proof. repeat split. Qed.

(** * Further properties of the program *)

(** ** The token gate and login *)

Section Gate.

Context {C : Collaborators}.

(** What the gate computes, for any token. *)
Lemma get_current_user_eq (utcnow : Z) (token : Token) (w : World) :
  get_current_user utcnow token w
  = (if negb (String.eqb (signature token) (hs256 SECRET_KEY (payload token)))
     then Raise credentials_exception
     else if match exp (payload token) with
             | Some e => e <? timegm utcnow
             | None => false
             end
     then Raise credentials_exception
     else match sub (payload token) with
          | None => Raise credentials_exception
          | Some username =>
              match first (filter (fun u => String.eqb (User.username u) username)
                             (users w)) with
              | None => Raise credentials_exception
              | Some user => Return user
              end
          end, w).
Proof.
  unfold get_current_user, bind, try_except, lift, jwt_decode, select_users,
    raise, ret.
  destruct (negb _); [reflexivity|].
  destruct (exp (payload token)) as [e|].
  - destruct (e <? timegm utcnow); [reflexivity|].
    destruct (sub (payload token)) as [name|]; [|reflexivity].
    cbn [fst snd]. destruct (first _); reflexivity.
  - destruct (sub (payload token)) as [name|]; [|reflexivity].
    cbn [fst snd]. destruct (first _); reflexivity.
Qed.

(** The two ways out of [get_current_user]. *)
Lemma get_current_user_cases (utcnow : Z) (token : Token) (w : World) :
  get_current_user utcnow token w = (Raise credentials_exception, w)
  \/ exists user name,
       get_current_user utcnow token w = (Return user, w)
       /\ sub (payload token) = Some name
       /\ first (filter (fun u => String.eqb (User.username u) name) (users w))
          = Some user
       /\ signature token = hs256 SECRET_KEY (payload token)
       /\ (forall e, exp (payload token) = Some e -> timegm utcnow <= e).
Proof.
  rewrite get_current_user_eq.
  destruct (String.eqb_spec (signature token) (hs256 SECRET_KEY (payload token)))
    as [Hs|Hs]; cbn [negb]; [|now left].
  assert (Hexp : (match exp (payload token) with
                  | Some e => e <? timegm utcnow
                  | None => false
                  end) = false ->
                 forall e, exp (payload token) = Some e -> timegm utcnow <= e).
  { intros H e He. rewrite He in H. apply Z.ltb_ge in H. exact H. }
  destruct (match exp (payload token) with
            | Some e => e <? timegm utcnow
            | None => false
            end); [now left|].
  destruct (sub (payload token)) as [name|]; [|now left].
  destruct (first _) as [user|] eqn:E; [|now left].
  right. exists user, name. repeat split; auto.
Qed.

Lemma get_current_user_returns (utcnow : Z) (token : Token) (w w' : World)
  (user : User.t) :
  get_current_user utcnow token w = (Return user, w') ->
  w' = w /\ In user (users w) /\ sub (payload token) = Some (User.username user).
Proof.
  intros Hrun.
  destruct (get_current_user_cases utcnow token w)
    as [H|(u & name & H & Hsub & Hfirst & _)]; rewrite H in Hrun;
    [discriminate|].
  inversion Hrun; subst u w'.
  apply first_filter_In in Hfirst. destruct Hfirst as [Hin Hname].
  apply String.eqb_eq in Hname. rewrite Hname. auto.
Qed.

Lemma get_current_user_refuses (utcnow : Z) (token : Token) (w : World) :
  fst (get_current_user utcnow token w) = Raise credentials_exception ->
  get_current_user utcnow token w = (Raise credentials_exception, w).
Proof.
  intros Hbad.
  destruct (get_current_user_cases utcnow token w)
    as [H|(u & name & H & _)]; [exact H|].
  rewrite H in Hbad. discriminate.
Qed.

Lemma login_state (utcnow : Z) (name password : string) (w : World) :
  snd (login utcnow name password w) = w.
Proof.
  unfold login, bind, select_users, ret, raise. cbn [fst snd].
  destruct (first _) as [user|]; [|reflexivity].
  destruct (negb _); reflexivity.
Qed.

(** X1: The gate answers in one of two ways and never writes: it either hands
    over an account that is stored, carries the token's subject as its
    username, under a signature that verifies and an expiry that has not
    passed, or it raises the one 401 "Could not validate credentials".  A
    signature made with anything but the process secret, and a token without
    a subject, always get the 401. *)
Theorem token_gate_outcomes (utcnow : Z) (token : Token) (w : World) :
  snd (get_current_user utcnow token w) = w
  /\ (fst (get_current_user utcnow token w) = Raise credentials_exception
      \/ exists user,
           fst (get_current_user utcnow token w) = Return user
           /\ In user (users w)
           /\ sub (payload token) = Some (User.username user)
           /\ signature token = hs256 SECRET_KEY (payload token)
           /\ (forall e, exp (payload token) = Some e -> timegm utcnow <= e))
  /\ (signature token <> hs256 SECRET_KEY (payload token) ->
      fst (get_current_user utcnow token w) = Raise credentials_exception)
  /\ (sub (payload token) = None ->
      fst (get_current_user utcnow token w) = Raise credentials_exception)
  /\ (forall name, sub (payload token) = Some name ->
        (forall u, In u (users w) -> User.username u <> name) ->
        fst (get_current_user utcnow token w) = Raise credentials_exception).
Proof.
  destruct (get_current_user_cases utcnow token w)
    as [H|(user & name & H & Hsub & Hfirst & Hsig & Hexp)].
  - rewrite H. cbn [fst snd]. repeat split; auto.
  - rewrite H. cbn [fst snd]. split; [reflexivity|].
    apply first_filter_In in Hfirst. destruct Hfirst as [Hin Hname].
    apply String.eqb_eq in Hname.
    split; [|split; [|split]].
    + right. exists user. rewrite Hname. auto.
    + intros Hbad. contradiction.
    + intros Hnone. congruence.
    + intros name' Hsub' Hno. exfalso.
      rewrite Hsub in Hsub'. inversion Hsub'; subst name'.
      exact (Hno user Hin Hname).
Qed.

Lemma timegm_mono (t1 t2 : Z) : t1 <= t2 -> timegm t1 <= timegm t2.
Proof. intros H. unfold timegm. apply Z.div_le_mono; lia. Qed.

(** X2: Time only takes validity away: a token the gate refuses at one moment
    is refused at every later moment against the same accounts. *)
Theorem refused_token_stays_refused (t1 t2 : Z) (token : Token) (w : World) :
  t1 <= t2 ->
  fst (get_current_user t1 token w) = Raise credentials_exception ->
  fst (get_current_user t2 token w) = Raise credentials_exception.
Proof.
  intros Hle. rewrite !get_current_user_eq. cbn [fst].
  destruct (negb _); [reflexivity|].
  destruct (exp (payload token)) as [e|].
  - pose proof (timegm_mono t1 t2 Hle) as Hm.
    destruct (Z.ltb_spec e (timegm t1)); destruct (Z.ltb_spec e (timegm t2));
      try reflexivity; try lia. auto.
  - auto.
Qed.

(** X3: [login] never writes; it answers 400 "User not found, ..." exactly for
    a username no account has, 400 "Incorrect password" when the hash of the
    account found does not verify, and otherwise a token whose subject is
    the username, signed under the process secret and expiring 24 hours
    after the second of the call. *)
Theorem login_outcomes (utcnow : Z) (name password : string) (w : World) :
  snd (login utcnow name password w) = w
  /\ ((forall u, In u (users w) -> User.username u <> name) <->
      fst (login utcnow name password w)
      = Raise (HTTPException 400 "User not found, please create a new account"))
  /\ (forall user,
        first (filter (fun u => String.eqb (User.username u) name) (users w))
        = Some user ->
        (verify_password password (User.hashed_password user) = false ->
         fst (login utcnow name password w)
         = Raise (HTTPException 400 "Incorrect password"))
        /\ (verify_password password (User.hashed_password user) = true ->
            exists tok,
              fst (login utcnow name password w) = Return tok
              /\ sub (payload tok) = Some name
              /\ exp (payload tok) = Some (timegm utcnow + 24 * 60 * 60)
              /\ signature tok = hs256 SECRET_KEY (payload tok))).
Proof.
  unfold login, bind, select_users, ret, raise. cbn [fst snd].
  destruct (first (filter (fun u => String.eqb (User.username u) name) (users w)))
    as [user|] eqn:E.
  - pose proof (first_filter_In _ _ _ E) as [Hin Hname].
    apply String.eqb_eq in Hname.
    destruct (verify_password password (User.hashed_password user)) eqn:V;
      cbn [negb fst snd].
    + split; [reflexivity|]. split.
      * split; [intros H; destruct (H user Hin Hname)|discriminate].
      * intros user' Hu. inversion Hu; subst user'. rewrite V.
        split; [discriminate|]. intros _. eexists. split; [reflexivity|].
        unfold create_access_token, jwt_encode. cbn [payload sub exp signature].
        rewrite timegm_expire, Hname. auto.
    + split; [reflexivity|]. split.
      * split; [intros H; destruct (H user Hin Hname)|discriminate].
      * intros user' Hu. inversion Hu; subst user'. rewrite V.
        split; [reflexivity|discriminate].
  - split; [reflexivity|]. split.
    + split; [reflexivity|]. intros _ u Hu Hn.
      rewrite first_filter_None in E. specialize (E u Hu).
      rewrite Hn, String.eqb_refl in E. discriminate.
    + intros user' Hu. discriminate.
Qed.


(** X4: Register, log in, pass the gate: when the hash of a password verifies
    against that password, a register with an unused username and email,
    followed by a login with the same credentials, gives a token that the
    gate resolves to the account just created. *)
Theorem signup_then_login (user_data : UserCreate.t) (utcnow : Z) (w : World) :
  (forall x, In x (users w) ->
     User.username x <> UserCreate.username user_data
     /\ User.email x <> UserCreate.email user_data) ->
  verify_password (UserCreate.password user_data)
    (get_password_hash (UserCreate.password user_data)) = true ->
  exists w' tok account,
    signup user_data w = (Return "User created successfully", w')
    /\ login utcnow (UserCreate.username user_data)
         (UserCreate.password user_data) w' = (Return tok, w')
    /\ get_current_user utcnow tok w' = (Return account, w')
    /\ In account (users w')
    /\ User.username account = UserCreate.username user_data
    /\ User.email account = UserCreate.email user_data
    /\ User.hashed_password account
       = get_password_hash (UserCreate.password user_data).
Proof.
  intros Hfresh Hverify.
  set (row := User.mk (next_id (map User.id (users w)))
                (UserCreate.username user_data) (UserCreate.email user_data)
                (get_password_hash (UserCreate.password user_data))).
  set (w' := mkWorld (users w ++ [row]) (entries w) (files w)).
  assert (Hrun : signup user_data w = (Return "User created successfully", w')).
  { rewrite signup_run.
    replace (existsb (fun u => String.eqb (User.username u)
                                 (UserCreate.username user_data)) (users w))
      with false.
    2:{ symmetry. apply existsb_none. intros x Hx.
        apply String.eqb_neq. exact (proj1 (Hfresh x Hx)). }
    replace (existsb (fun u => String.eqb (User.email u)
                                 (UserCreate.email user_data)) (users w))
      with false; [reflexivity|].
    symmetry. apply existsb_none. intros x Hx.
    apply String.eqb_neq. exact (proj2 (Hfresh x Hx)). }
  assert (Hw : w' = mkWorld (users w ++ [row]) (entries w) (files w)) by reflexivity.
  assert (Hu : User.username row = UserCreate.username user_data) by reflexivity.
  assert (He : User.email row = UserCreate.email user_data) by reflexivity.
  assert (Hh : User.hashed_password row
               = get_password_hash (UserCreate.password user_data)) by reflexivity.
  clearbody w' row.
  assert (Hnil : filter (fun u => String.eqb (User.username u)
                                    (UserCreate.username user_data)) (users w)
                 = []).
  { assert (Hn : first (filter (fun u => String.eqb (User.username u)
                                  (UserCreate.username user_data)) (users w))
                 = None).
    { apply first_filter_None. intros x Hx. apply String.eqb_neq.
      exact (proj1 (Hfresh x Hx)). }
    destruct (filter _ (users w)); [reflexivity|discriminate]. }
  assert (Hfirst :
    first (filter (fun u => String.eqb (User.username u)
                              (UserCreate.username user_data)) (users w'))
    = Some row).
  { rewrite Hw. cbn [users]. rewrite filter_app, Hnil. simpl.
    rewrite Hu, String.eqb_refl. reflexivity. }
  exists w', (create_access_token (mkClaims (Some (User.username row)) None) utcnow),
    row.
  split; [exact Hrun|]. split; [|split; [|split]].
  - unfold login, bind, select_users, ret, raise. cbn [fst snd].
    rewrite Hfirst, Hh, Hverify. reflexivity.
  - rewrite get_current_user_eq.
    unfold create_access_token, jwt_encode. cbn [signature payload sub exp].
    rewrite String.eqb_refl, timegm_expire. cbn [negb].
    destruct (Z.ltb_spec (timegm utcnow + 24 * 60 * 60) (timegm utcnow)); [lia|].
    rewrite Hu, Hfirst. reflexivity.
  - rewrite Hw. cbn [users]. apply in_or_app. right. now left.
  - auto.
Qed.


End Gate.

(** ** More on the entry pipeline *)

Section PipelineMore.

Context {C : Collaborators}.

(** Every way through [process_entry_logic]. *)
Lemma process_entry_logic_cases (text date_str : string) (user : User.t)
  (w : World) :
  (exists msg,
     process_entry_logic text date_str user w = (Raise (ValueError msg), w)
     /\ (classify text = [] \/ strptime_ymd date_str = None))
  \/ (exists (d : Date.t) (m : Q) (k : nat) (o : outcome Response),
        classify text <> []
        /\ strptime_ymd date_str = Some d
        /\ In m (classify text)
        /\ process_entry_logic text date_str user w
           = (o, mkWorld (users w)
                   (entries w
                    ++ [JournalEntry.mk (next_id (map JournalEntry.id (entries w)))
                          (User.id user) d (cipher_encrypt text)
                          (dict_get EMOTION_LABELS (Z.of_nat k) "neutral") m])
                   (files w))
        /\ ((Date.toordinal d <= 90
             /\ o = Raise (OverflowError "date value out of range"))
            \/ (90 < Date.toordinal d
                /\ exists count,
                     o = Return (mkResponse
                                   (dict_get EMOTION_LABELS (Z.of_nat k) "neutral")
                                   (round_percent m)
                                   (insight_of
                                      (dict_get EMOTION_LABELS (Z.of_nat k) "neutral"))
                                   count None None)))).
Proof.
  destruct (classify text) as [|p ps] eqn:E.
  { left. unfold process_entry_logic, bind, lift. rewrite E. simpl.
    eexists. split; [reflexivity|now left]. }
  destruct (strptime_ymd date_str) as [d|] eqn:Hd.
  2:{ left. destruct (process_entry_logic_bad_date text date_str user w Hd)
        as (msg & H). exists msg. split; [exact H|now right]. }
  right.
  destruct (argmax_spec (classify text)) as (m & k & Hm & Hi & Hin & _);
    [rewrite E; discriminate|].
  pose proof (process_entry_logic_run text date_str d user w m _ Hm Hi Hd) as Hrun.
  cbv zeta in Hrun. rewrite <- E.
  exists d, m, k. eexists.
  split; [rewrite E; discriminate|]. split; [reflexivity|]. split; [exact Hin|].
  split; [exact Hrun|].
  unfold date_minus_days.
  destruct (Z.ltb_spec (Date.toordinal d - 90) 1).
  - left. split; [lia|reflexivity].
  - right. split; [lia|]. eexists. reflexivity.
Qed.


(** X6: A date in the first 90 days of the calendar parses, the row is
    committed, and only then does the window's lower bound overflow: the
    call raises [OverflowError] with the entry already stored. *)
Theorem early_date_is_stored_then_fails (text date_str : string) (d : Date.t)
  (user : User.t) (w : World) :
  classify text <> [] ->
  strptime_ymd date_str = Some d ->
  Date.toordinal d <= 90 ->
  exists row,
    process_entry_logic text date_str user w
    = (Raise (OverflowError "date value out of range"),
       mkWorld (users w) (entries w ++ [row]) (files w))
    /\ JournalEntry.date row = d
    /\ JournalEntry.user_id row = User.id user.
Proof.
  intros Hne Hd Hord.
  destruct (process_entry_logic_cases text date_str user w)
    as [(msg & _ & [H|H])|(d' & m & k & o & _ & Hd' & _ & Hrun & Ho)];
    [contradiction|congruence|].
  rewrite Hd in Hd'. inversion Hd'; subst d'.
  destruct Ho as [[_ ->]|[Hgt _]]; [|lia].
  eexists. split; [exact Hrun|]. split; reflexivity.
Qed.

Lemma dict_get_in_labels (idx : Z) :
  In (dict_get EMOTION_LABELS idx "neutral") (map snd EMOTION_LABELS).
Proof.
  assert (Hn : In "neutral" (map snd EMOTION_LABELS)).
  { apply in_map_iff. exists (27, "neutral"). split; [reflexivity|].
    unfold EMOTION_LABELS. do 27 right. now left. }
  destruct (Z_lt_le_dec idx 0) as [Hneg|Hpos].
  - rewrite dict_get_out_of_table by lia. exact Hn.
  - destruct (Z_lt_le_dec idx 28) as [Hin|Hout].
    + replace idx with (Z.of_nat (Z.to_nat idx)) by lia.
      rewrite dict_get_in_table by lia.
      apply nth_In. simpl. lia.
    + rewrite dict_get_out_of_table by lia. exact Hn.
Qed.

Lemma strptime_ymd_valid (date_str : string) (d : Date.t) :
  strptime_ymd date_str = Some d ->
  Date.valid (Date.year d) (Date.month d) (Date.day d) = true.
Proof.
  unfold strptime_ymd, parse_month_day.
  repeat match goal with
         | |- context [match ?x with _ => _ end] =>
             destruct x eqn:?; try discriminate
         end;
    intros H; inversion H; subst; cbn [Date.year Date.month Date.day]; assumption.
Qed.

(** X7: The row the pipeline stores is well formed: its emotion is one of the
    28 labels of the table, its date is a date of the calendar, its score is
    one of the classifier's probabilities and lies between 0 and 1 when they
    do; and the response, when there is one, names the stored emotion,
    carries the insight text of that emotion, and reports the stored score
    as a rounded percentage. *)
Theorem stored_row_well_formed (text date_str : string) (user : User.t)
  (w : World) (row : JournalEntry.t) (o : outcome Response) :
  process_entry_logic text date_str user w
  = (o, mkWorld (users w) (entries w ++ [row]) (files w)) ->
  In (JournalEntry.emotion_primary row) (map snd EMOTION_LABELS)
  /\ Date.valid (Date.year (JournalEntry.date row))
       (Date.month (JournalEntry.date row)) (Date.day (JournalEntry.date row))
     = true
  /\ In (JournalEntry.emotion_score row) (classify text)
  /\ (Forall (fun p => (0 <= p)%Q /\ (p <= 1)%Q) (classify text) ->
      (0 <= JournalEntry.emotion_score row)%Q
      /\ (JournalEntry.emotion_score row <= 1)%Q)
  /\ (forall resp, o = Return resp ->
        emotion resp = JournalEntry.emotion_primary row
        /\ insight resp = insight_of (JournalEntry.emotion_primary row)
        /\ score resp = round_percent (JournalEntry.emotion_score row)).
Proof.
  intros Hrun.
  destruct (process_entry_logic_cases text date_str user w)
    as [(msg & Hrun' & _)|(d & m & k & o' & _ & Hd & Hin & Hrun' & Ho)].
  { rewrite Hrun' in Hrun. apply (f_equal snd) in Hrun. cbn [snd] in Hrun.
    pose proof (f_equal entries Hrun) as Hw. cbn [entries] in Hw.
    apply (f_equal (@List.length _)) in Hw. rewrite length_app in Hw.
    simpl in Hw. lia. }
  rewrite Hrun' in Hrun. inversion Hrun as [[Ho' Hw]].
  apply app_inv_head in Hw. inversion Hw; subst row. clear Hw Hrun.
  cbn [JournalEntry.emotion_primary JournalEntry.date JournalEntry.emotion_score].
  split; [apply dict_get_in_labels|].
  split; [apply (strptime_ymd_valid date_str), Hd|].
  split; [exact Hin|]. split.
  - intros Hall. rewrite Forall_forall in Hall. exact (Hall m Hin).
  - intros resp Hresp. subst o.
    destruct Ho as [[_ Ho]|[_ (count & Ho)]]; rewrite Ho in Hresp;
      [discriminate|].
    inversion Hresp. cbn. auto.
Qed.

(** X8: What is written can be read back, and by its owner only: after a
    successful [analyze_text] the caller's history is the old one with the
    pair (submitted date, reported emotion) added, and the history of every
    other account is what it was. *)
Theorem analyze_then_history (text date_str : string) (A : User.t)
  (w w' : World) (resp : Response) :
  analyze_text text date_str A w = (Return resp, w') ->
  exists d before after,
    strptime_ymd date_str = Some d
    /\ fst (get_history A w) = Return before
    /\ fst (get_history A w') = Return after
    /\ In (d, emotion resp) after
    /\ Permutation after ((d, emotion resp) :: before)
    /\ (forall B, User.id B <> User.id A ->
          fst (get_history B w') = fst (get_history B w)).
Proof.
  unfold analyze_text. intros Hrun.
  destruct (process_entry_logic_cases text date_str A w)
    as [(msg & Hrun' & _)|(d & m & k & o & _ & Hd & _ & Hrun' & Ho)];
    [rewrite Hrun' in Hrun; discriminate|].
  rewrite Hrun' in Hrun.
  pose proof (f_equal fst Hrun) as Ho'. pose proof (f_equal snd Hrun) as Hw.
  cbn [fst snd] in Ho', Hw. subst o w'. clear Hrun.
  destruct Ho as [[_ Ho]|[_ (count & Ho)]]; [discriminate|].
  assert (Hresp : emotion (mkResponse (dict_get EMOTION_LABELS (Z.of_nat k) "neutral")
                             (round_percent m)
                             (insight_of (dict_get EMOTION_LABELS (Z.of_nat k) "neutral"))
                             count None None) = emotion resp).
  { apply (f_equal (fun o => match o with
                             | Return r => emotion r
                             | Raise _ => ""
                             end)) in Ho. symmetry. exact Ho. }
  cbn [emotion] in Hresp. clear Ho.
  set (row := JournalEntry.mk (next_id (map JournalEntry.id (entries w)))
                (User.id A) d (cipher_encrypt text)
                (dict_get EMOTION_LABELS (Z.of_nat k) "neutral") m) in *.
  set (w1 := mkWorld (users w) (entries w ++ [row]) (files w)).
  set (mine := fun e : JournalEntry.t => JournalEntry.user_id e =? User.id A).
  set (rows := order_by_date (filter mine (entries w))).
  set (rows1 := order_by_date (filter mine (entries w1))).
  set (pair_of := fun e : JournalEntry.t =>
                    (JournalEntry.date e, JournalEntry.emotion_primary e)).
  assert (H1 : get_history A w = (Return (map pair_of rows), w)) by reflexivity.
  assert (H1' : get_history A w1 = (Return (map pair_of rows1), w1)) by reflexivity.
  pose proof (proj1 (order_by_date_spec (filter mine (entries w)))) as Hp.
  pose proof (proj1 (order_by_date_spec (filter mine (entries w1)))) as Hp'.
  fold rows in Hp. fold rows1 in Hp'.
  exists d, (map pair_of rows), (map pair_of rows1).
  split; [exact Hd|]. split; [rewrite H1; reflexivity|].
  split; [rewrite H1'; reflexivity|].
  assert (Hperm : Permutation rows1 (row :: rows)).
  { eapply Permutation_trans; [apply Permutation_sym, Hp'|].
    unfold w1. cbn [entries]. rewrite filter_app. simpl.
    unfold mine at 2. cbn [JournalEntry.user_id]. rewrite Z.eqb_refl.
    eapply Permutation_trans; [apply Permutation_sym, Permutation_cons_append|].
    apply perm_skip, Hp. }
  assert (Hmap : Permutation (map pair_of rows1) ((d, emotion resp) :: map pair_of rows)).
  { rewrite <- Hresp.
    change ((d, dict_get EMOTION_LABELS (Z.of_nat k) "neutral") :: map pair_of rows)
      with (map pair_of (row :: rows)).
    apply Permutation_map, Hperm. }
  split; [|split; [exact Hmap|]].
  - apply (Permutation_in _ (Permutation_sym Hmap)). now left.
  - intros B HB.
    unfold get_history, bind, select_entries, ret, w1. cbn [fst snd entries].
    rewrite filter_app. simpl. cbn [JournalEntry.user_id].
    destruct (Z.eqb_spec (User.id A) (User.id B)) as [Heq|_]; [congruence|].
    rewrite app_nil_r. reflexivity.
Qed.




(** X10: What a successful [analyze_audio] has done: the transcriber answered,
    its text stripped of surrounding whitespace is not empty, the response
    carries that text with the audio flag set, and one row was stored for
    the caller whose content is the ciphertext of that text and whose
    emotion is the one reported. *)
Theorem analyze_audio_success (disk : Disk) (upload : UploadFile)
  (date : string) (user : User.t) (w w' : World) (resp : Response) :
  analyze_audio disk upload date user w = (Return resp, w') ->
  exists result t row,
    whisper_transcribe (file upload) = Return result
    /\ t = strip match result with Some t => t | None => "" end
    /\ t <> ""
    /\ transcription resp = Some t
    /\ is_audio resp = Some true
    /\ users w' = users w
    /\ entries w' = (entries w ++ [row])%list
    /\ JournalEntry.user_id row = User.id user
    /\ JournalEntry.encrypted_content row = cipher_encrypt t
    /\ JournalEntry.emotion_primary row = emotion resp
    /\ insight resp = insight_of (emotion resp).
Proof.
  intros Hrun.
  destruct (NamedTemporaryFile_spec (tmp_names disk) (upload_ext upload) w)
    as [Hno|(n & _ & Hfresh & Htmp)].
  { rewrite (analyze_audio_no_name _ _ _ _ _ _ Hno) in Hrun. discriminate. }
  rewrite (analyze_audio_run disk upload date user w _ Htmp Hfresh) in Hrun.
  destruct (write_error disk); [discriminate|]. cbv zeta in Hrun.
  destruct (whisper_transcribe (file upload)) as [result|cause]; [|discriminate].
  set (t := strip match result with Some t => t | None => "" end) in *.
  destruct (truthy t) eqn:Ht; [|discriminate].
  destruct (process_entry_logic_cases t date user
              (mkWorld (users w) (entries w)
                 (files w ++ [(tmp_path_of n (upload_ext upload), file upload)])))
    as [(msg & Hp & _)|(d & m & k & o & _ & _ & _ & Hp & Ho)];
    rewrite Hp in Hrun; [discriminate|].
  destruct Ho as [[_ ->]|[_ (count & ->)]]; [discriminate|].
  pose proof (f_equal fst Hrun) as Hr. pose proof (f_equal snd Hrun) as Hw.
  cbn [fst snd] in Hr, Hw.
  assert (Hresp : resp = mkResponse (dict_get EMOTION_LABELS (Z.of_nat k) "neutral")
                           (round_percent m)
                           (insight_of (dict_get EMOTION_LABELS (Z.of_nat k) "neutral"))
                           count (Some true) (Some t)).
  { apply (f_equal (fun o => match o with
                             | Return r => r
                             | Raise _ => resp
                             end)) in Hr. symmetry. exact Hr. }
  exists result, t. eexists.
  split; [reflexivity|]. split; [reflexivity|].
  split; [intros H; rewrite H in Ht; discriminate|].
  rewrite Hresp. cbn [transcription is_audio emotion insight].
  split; [reflexivity|]. split; [reflexivity|].
  rewrite <- Hw.
  destruct (remove_error disk); cbn [users entries];
    repeat split; reflexivity.
Qed.

(** X11: [analyze_audio] leaves every file that was there as it was: afterwards
    the disk holds what it held, plus at most the temporary file, created
    under one of the drawn names that no file had and ending in the
    extension of the upload. *)
Theorem analyze_audio_keeps_files (disk : Disk) (upload : UploadFile)
  (date : string) (user : User.t) (w : World) :
  files (snd (analyze_audio disk upload date user w)) = files w
  \/ exists n content,
       In n (tmp_names disk)
       /\ existsb (fun f => String.eqb (fst f)
                              (tmp_path_of n (upload_ext upload))) (files w)
          = false
       /\ files (snd (analyze_audio disk upload date user w))
          = (files w ++ [(tmp_path_of n (upload_ext upload), content)])%list.
Proof.
  destruct (NamedTemporaryFile_spec (tmp_names disk) (upload_ext upload) w)
    as [Hno|(n & Hn & Hfresh & Htmp)].
  { rewrite (analyze_audio_no_name _ _ _ _ _ _ Hno). now left. }
  rewrite (analyze_audio_run disk upload date user w _ Htmp Hfresh).
  destruct (write_error disk) as [msg|].
  { right. exists n, "". auto. }
  cbv zeta.
  assert (Hfin : forall (o : outcome Response) (w2 : World),
     files w2
     = (files w ++ [(tmp_path_of n (upload_ext upload), file upload)])%list ->
     files (snd (o, match remove_error disk with
                    | Some _ => w2
                    | None => mkWorld (users w2) (entries w2) (files w)
                    end)) = files w
     \/ exists n0 content,
          In n0 (tmp_names disk)
          /\ existsb (fun f => String.eqb (fst f)
                                 (tmp_path_of n0 (upload_ext upload))) (files w)
             = false
          /\ files (snd (o, match remove_error disk with
                            | Some _ => w2
                            | None => mkWorld (users w2) (entries w2) (files w)
                            end))
             = (files w ++ [(tmp_path_of n0 (upload_ext upload), content)])%list).
  { intros o w2 Hf. cbn [snd]. destruct (remove_error disk).
    - right. exists n, (file upload). auto.
    - now left. }
  destruct (whisper_transcribe (file upload)) as [result|cause];
    [|apply Hfin; reflexivity].
  destruct (truthy _); [|apply Hfin; reflexivity].
  pose proof (process_entry_logic_frame
                (strip match result with Some t => t | None => "" end) date user
                (mkWorld (users w) (entries w)
                   (files w ++ [(tmp_path_of n (upload_ext upload), file upload)])))
    as (_ & Hfiles & _).
  destruct (process_entry_logic _ date user _) as [[r|cause] w2];
    apply Hfin; exact Hfiles.
Qed.


End PipelineMore.

(** ** The application as served *)

Section ServerMore.

Context {C : Collaborators}.

Lemma next_id_above (ids : list Z) (i : Z) : In i ids -> i < next_id ids.
Proof.
  unfold next_id. induction ids as [|x ids IH]; intros Hi; [destruct Hi|].
  simpl. destruct Hi as [->|Hi]; [lia|]. specialize (IH Hi). lia.
Qed.

Lemma NoDup_snoc {A} (l : list A) (x : A) :
  NoDup l -> ~ In x l -> NoDup (l ++ [x]).
Proof.
  intros Hl Hx.
  apply (Permutation_NoDup (Permutation_cons_append l x)).
  constructor; assumption.
Qed.

(** What the pipeline does to the two tables. *)
Lemma process_entry_logic_tables (text date_str : string) (user : User.t)
  (w : World) :
  users (snd (process_entry_logic text date_str user w)) = users w
  /\ (entries (snd (process_entry_logic text date_str user w)) = entries w
      \/ exists row,
           entries (snd (process_entry_logic text date_str user w))
           = (entries w ++ [row])%list
           /\ JournalEntry.id row = next_id (map JournalEntry.id (entries w))
           /\ JournalEntry.user_id row = User.id user).
Proof.
  destruct (process_entry_logic_cases text date_str user w)
    as [(msg & Hrun & _)|(d & m & k & o & _ & _ & _ & Hrun & _)];
    rewrite Hrun; cbn [snd users entries].
  - auto.
  - split; [reflexivity|]. right. eexists. split; [reflexivity|].
    split; reflexivity.
Qed.

Lemma analyze_audio_tables (disk : Disk) (upload : UploadFile) (date : string)
  (user : User.t) (w : World) :
  users (snd (analyze_audio disk upload date user w)) = users w
  /\ (entries (snd (analyze_audio disk upload date user w)) = entries w
      \/ exists row,
           entries (snd (analyze_audio disk upload date user w))
           = (entries w ++ [row])%list
           /\ JournalEntry.id row = next_id (map JournalEntry.id (entries w))
           /\ JournalEntry.user_id row = User.id user).
Proof.
  destruct (NamedTemporaryFile_spec (tmp_names disk) (upload_ext upload) w)
    as [Hno|(n & _ & Hfresh & Htmp)].
  { rewrite (analyze_audio_no_name _ _ _ _ _ _ Hno). auto. }
  rewrite (analyze_audio_run disk upload date user w _ Htmp Hfresh).
  destruct (write_error disk) as [msg|]; [auto|]. cbv zeta.
  assert (Hfin : forall (w2 : World),
            users (match remove_error disk with
                   | Some _ => w2
                   | None => mkWorld (users w2) (entries w2) (files w)
                   end) = users w2
            /\ entries (match remove_error disk with
                        | Some _ => w2
                        | None => mkWorld (users w2) (entries w2) (files w)
                        end) = entries w2).
  { intros w2. destruct (remove_error disk); auto. }
  destruct (whisper_transcribe (file upload)) as [result|cause].
  2:{ cbn [snd]. destruct (Hfin (mkWorld (users w) (entries w)
                     (files w ++ [(tmp_path_of n (upload_ext upload), file upload)])))
        as [-> ->]. auto. }
  destruct (truthy _).
  2:{ cbn [snd]. destruct (Hfin (mkWorld (users w) (entries w)
                     (files w ++ [(tmp_path_of n (upload_ext upload), file upload)])))
        as [-> ->]. auto. }
  pose proof (process_entry_logic_tables
                (strip match result with Some t => t | None => "" end) date user
                (mkWorld (users w) (entries w)
                   (files w ++ [(tmp_path_of n (upload_ext upload), file upload)])))
    as Ht.
  destruct (process_entry_logic _ date user _) as [[r|cause] w2];
    cbn [snd users entries] in *; destruct (Hfin w2) as [-> ->]; exact Ht.
Qed.

Lemma schema_ok_add_entry (w w' : World) (u : User.t) (row : JournalEntry.t) :
  schema_ok w ->
  In u (users w) ->
  users w' = users w ->
  entries w' = (entries w ++ [row])%list ->
  JournalEntry.id row = next_id (map JournalEntry.id (entries w)) ->
  JournalEntry.user_id row = User.id u ->
  schema_ok w'.
Proof.
  intros [H1 H2 H3 H4 H5] Hu Husers Hentries Hid Howner.
  constructor; rewrite ?Husers, ?Hentries; try assumption.
  - rewrite map_app. simpl. apply NoDup_snoc; [exact H4|].
    intros Hin. apply next_id_above in Hin. lia.
  - intros e He. apply in_app_or in He. destruct He as [He|[<-|[]]].
    + exact (H5 e He).
    + exists u. split; [exact Hu|]. symmetry. exact Howner.
Qed.

Lemma schema_ok_same_tables (w w' : World) :
  schema_ok w -> users w' = users w -> entries w' = entries w -> schema_ok w'.
Proof.
  intros [H1 H2 H3 H4 H5] Husers Hentries.
  constructor; rewrite ?Husers, ?Hentries; assumption.
Qed.

Lemma signup_keeps_schema (user_data : UserCreate.t) (w : World) :
  schema_ok w -> schema_ok (snd (signup user_data w)).
Proof.
  intros Hok. rewrite signup_run.
  destruct (existsb (fun u => String.eqb (User.username u)
                                (UserCreate.username user_data)) (users w))
    eqn:Eu; [exact Hok|].
  destruct (existsb (fun u => String.eqb (User.email u)
                                (UserCreate.email user_data)) (users w))
    eqn:Ee; [exact Hok|].
  rewrite existsb_none in Eu, Ee.
  destruct Hok as [H1 H2 H3 H4 H5].
  constructor; cbn [snd users entries]; rewrite ?map_app; simpl;
    try assumption.
  - apply NoDup_snoc; [exact H1|]. intros Hin.
    apply in_map_iff in Hin. destruct Hin as (x & Hx & Hin).
    specialize (Eu x Hin). cbv beta in Eu.
    rewrite Hx, String.eqb_refl in Eu. discriminate.
  - apply NoDup_snoc; [exact H2|]. intros Hin.
    apply in_map_iff in Hin. destruct Hin as (x & Hx & Hin).
    specialize (Ee x Hin). cbv beta in Ee.
    rewrite Hx, String.eqb_refl in Ee. discriminate.
  - apply NoDup_snoc; [exact H3|]. intros Hin.
    apply next_id_above in Hin. lia.
  - intros e He. destruct (H5 e He) as (u & Hu & Hid).
    exists u. split; [apply in_or_app; now left|exact Hid].
Qed.

(** A failed [signup] stores nothing. *)
Lemma signup_entries (user_data : UserCreate.t) (w : World) :
  entries (snd (signup user_data w)) = entries w.
Proof.
  rewrite signup_run.
  destruct (existsb _ (users w)); [reflexivity|].
  destruct (existsb _ (users w)); reflexivity.
Qed.

(** The state the signup and token routes leave behind. *)
Lemma serve_signup_state (utcnow : Z) (user_data : UserCreate.t) (w : World) :
  snd (serve utcnow (PostSignup user_data) w) = w
  \/ exists email,
       snd (serve utcnow (PostSignup user_data) w)
       = snd (signup (UserCreate.mk (UserCreate.username user_data) email
                        (UserCreate.password user_data)) w).
Proof.
  unfold serve, EmailStr, bind, ret, raise.
  destruct (validate_email (UserCreate.email user_data)) as [email|];
    [|now left].
  right. exists email.
  destruct (signup _ w) as [[a|e] w2]; reflexivity.
Qed.

Lemma serve_token_state (utcnow : Z) (name password : string) (w : World) :
  snd (serve utcnow (PostToken name password) w) = w.
Proof.
  unfold serve, Form, bind, ret, raise.
  destruct (filter _ _); [|reflexivity].
  pose proof (login_state utcnow name password w) as H.
  destruct (login utcnow name password w) as [[a|e] w2]; exact H.
Qed.

(** A body behind a form runs on the state it found, or not at all. *)
Lemma Form_state {A} (fields : list (string * string)) (body : M A) (w : World) :
  snd ((Form fields ;; body) w) = w
  \/ snd ((Form fields ;; body) w) = snd (body w).
Proof.
  unfold Form, bind, ret, raise.
  destruct (filter _ fields); [now right|now left].
Qed.

(** The state a secured route leaves behind is that of its body run for the
    user the gate returned, or the state it found when the gate refused. *)
Lemma serve_secured_state {A} (utcnow : Z) (authorization : option Token)
  (body : User.t -> M A) (reply : A -> Reply) (w : World) :
  snd ((token <- oauth2_scheme authorization ;;
        current_user <- get_current_user utcnow token ;;
        response <- body current_user ;;
        ret (reply response)) w) = w
  \/ exists token user,
       authorization = Some token
       /\ get_current_user utcnow token w = (Return user, w)
       /\ snd ((token <- oauth2_scheme authorization ;;
                current_user <- get_current_user utcnow token ;;
                response <- body current_user ;;
                ret (reply response)) w) = snd (body user w).
Proof.
  destruct authorization as [token|]; [|now left].
  unfold oauth2_scheme, bind, ret.
  destruct (get_current_user_cases utcnow token w)
    as [H|(user & name & H & _)].
  - left. rewrite H. reflexivity.
  - right. exists token, user. split; [reflexivity|]. split; [exact H|].
    rewrite H. destruct (body user w) as [[a|e] w2]; reflexivity.
Qed.

(** The state the analyze routes leave behind: the one they found, or that
    of the body run for the account of an accepted token. *)
Lemma serve_analyze_text_state (utcnow : Z) (authorization : option Token)
  (text date : string) (w : World) :
  snd (serve utcnow (PostAnalyzeText authorization text date) w) = w
  \/ exists token user,
       authorization = Some token
       /\ get_current_user utcnow token w = (Return user, w)
       /\ snd (serve utcnow (PostAnalyzeText authorization text date) w)
          = snd (analyze_text text date user w).
Proof.
  unfold serve.
  destruct (serve_secured_state utcnow authorization
              (fun current_user =>
                 Form [("text", text); ("date", date)] ;;
                 analyze_text text date current_user) Analysis w)
    as [H|(token & user & Hauth & Hgate & H)]; [left; exact H|].
  destruct (Form_state [("text", text); ("date", date)]
              (analyze_text text date user) w) as [Hf|Hf].
  - left. rewrite H. exact Hf.
  - right. exists token, user. split; [exact Hauth|]. split; [exact Hgate|].
    rewrite H. exact Hf.
Qed.

Lemma serve_analyze_audio_state (utcnow : Z) (authorization : option Token)
  (disk : Disk) (upload : UploadFile) (date : string) (w : World) :
  snd (serve utcnow (PostAnalyzeAudio authorization disk upload date) w) = w
  \/ exists token user,
       authorization = Some token
       /\ get_current_user utcnow token w = (Return user, w)
       /\ snd (serve utcnow (PostAnalyzeAudio authorization disk upload date) w)
          = snd (analyze_audio disk upload date user w).
Proof.
  unfold serve.
  destruct (serve_secured_state utcnow authorization
              (fun current_user =>
                 Form [("date", date)] ;;
                 analyze_audio disk upload date current_user) Analysis w)
    as [H|(token & user & Hauth & Hgate & H)]; [left; exact H|].
  destruct (Form_state [("date", date)]
              (analyze_audio disk upload date user) w) as [Hf|Hf].
  - left. rewrite H. exact Hf.
  - right. exists token, user. split; [exact Hauth|]. split; [exact Hgate|].
    rewrite H. exact Hf.
Qed.

Lemma serve_schema_step (utcnow : Z) (request : Request) (w : World) :
  schema_ok w -> schema_ok (snd (serve utcnow request w)).
Proof.
  intros Hok. destruct request as [ud|name pw|auth text date|auth disk upload date|auth].
  - destruct (serve_signup_state utcnow ud w) as [->|(email & ->)];
      [exact Hok|apply signup_keeps_schema, Hok].
  - rewrite serve_token_state. exact Hok.
  - destruct (serve_analyze_text_state utcnow auth text date w)
      as [->|(token & user & _ & Hgate & ->)]; [exact Hok|].
    destruct (get_current_user_returns utcnow token w w user Hgate)
      as (_ & Hin & _).
    destruct (process_entry_logic_tables text date user w)
      as (Husers & [Hsame|(row & Hrow & Hid & Howner)]).
    + exact (schema_ok_same_tables w _ Hok Husers Hsame).
    + exact (schema_ok_add_entry w _ user row Hok Hin Husers Hrow Hid Howner).
  - destruct (serve_analyze_audio_state utcnow auth disk upload date w)
      as [->|(token & user & _ & Hgate & ->)]; [exact Hok|].
    destruct (get_current_user_returns utcnow token w w user Hgate)
      as (_ & Hin & _).
    destruct (analyze_audio_tables disk upload date user w)
      as (Husers & [Hsame|(row & Hrow & Hid & Howner)]).
    + exact (schema_ok_same_tables w _ Hok Husers Hsame).
    + exact (schema_ok_add_entry w _ user row Hok Hin Husers Hrow Hid Howner).
  - unfold serve.
    destruct (serve_secured_state utcnow auth get_history History w)
      as [->|(token & user & _ & Hgate & ->)]; exact Hok.
Qed.

(** X13: Every request, whatever it returns or raises, keeps the constraints of
    the schema: usernames, emails and the keys of both tables stay pairwise
    distinct, and every entry is owned by a stored account.  Hence every
    state the application reaches from empty tables, by any sequence of
    requests, satisfies them. *)
Theorem schema_is_invariant :
  (forall (utcnow : Z) (request : Request) (w : World),
     schema_ok w -> schema_ok (snd (serve utcnow request w)))
  /\ (forall (requests : list (Z * Request)) (disk_files : list (string * string)),
        schema_ok (serve_all requests (mkWorld [] [] disk_files))).
Proof.
  split; [exact serve_schema_step|].
  intros requests disk_files.
  assert (H : forall w, schema_ok w -> schema_ok (serve_all requests w)).
  { induction requests as [|[utcnow request] requests IH]; intros w Hok.
    - exact Hok.
    - simpl. apply IH, serve_schema_step, Hok. }
  apply H. constructor; simpl; try constructor. intros e [].
Qed.

(** X14: Without a token the gate accepts, a secured route does nothing: the
    three routes answer 401 and the state, files included, is the one they
    found. *)
Theorem refused_request_changes_nothing (utcnow : Z)
  (authorization : option Token) (w : World) :
  (authorization = None
   \/ exists token,
        authorization = Some token
        /\ fst (get_current_user utcnow token w) = Raise credentials_exception) ->
  (forall text date, exists detail,
      serve utcnow (PostAnalyzeText authorization text date) w
      = (Raise (HTTPException 401 detail), w))
  /\ (forall disk upload date, exists detail,
        serve utcnow (PostAnalyzeAudio authorization disk upload date) w
        = (Raise (HTTPException 401 detail), w))
  /\ (exists detail,
        serve utcnow (GetHistory authorization) w
        = (Raise (HTTPException 401 detail), w)).
Proof.
  intros [->|(token & -> & Hbad)].
  - repeat split; intros; eexists; reflexivity.
  - pose proof (get_current_user_refuses utcnow token w Hbad) as Hrun.
    repeat split; intros; exists "Could not validate credentials";
      unfold serve, oauth2_scheme, bind, ret; rewrite Hrun; reflexivity.
Qed.

(** X15: A row appears in the entries table only through an analyze route called
    with a token the gate accepts, and it is owned by the account the gate
    resolved that token to: nobody can write into another account's
    journal. *)
Theorem served_rows_belong_to_subject (utcnow : Z) (request : Request)
  (w : World) (e : JournalEntry.t) :
  In e (entries (snd (serve utcnow request w))) ->
  ~ In e (entries w) ->
  exists token user,
    ((exists text date, request = PostAnalyzeText (Some token) text date)
     \/ (exists disk upload date,
           request = PostAnalyzeAudio (Some token) disk upload date))
    /\ get_current_user utcnow token w = (Return user, w)
    /\ sub (payload token) = Some (User.username user)
    /\ JournalEntry.user_id e = User.id user.
Proof.
  intros Hin Hnew.
  assert (Hsub : forall token user,
             get_current_user utcnow token w = (Return user, w) ->
             sub (payload token) = Some (User.username user)).
  { intros token user Hgate.
    exact (proj2 (proj2 (get_current_user_returns utcnow token w w user Hgate))). }
  assert (Hrow : forall (w2 : World) (user : User.t),
             In e (entries w2) ->
             (entries w2 = entries w
              \/ exists row,
                   entries w2 = (entries w ++ [row])%list
                   /\ JournalEntry.id row = next_id (map JournalEntry.id (entries w))
                   /\ JournalEntry.user_id row = User.id user) ->
             JournalEntry.user_id e = User.id user).
  { intros w2 user He [Hsame|(row & Hrow & _ & Howner)].
    - rewrite Hsame in He. contradiction.
    - rewrite Hrow in He. apply in_app_or in He.
      destruct He as [He|[<-|[]]]; [contradiction|exact Howner]. }
  destruct request as [ud|name pw|auth text date|auth disk upload date|auth].
  - exfalso. apply Hnew.
    destruct (serve_signup_state utcnow ud w) as [Hw|(email & Hw)];
      rewrite Hw in Hin; [exact Hin|].
    rewrite signup_entries in Hin. exact Hin.
  - exfalso. apply Hnew. rewrite serve_token_state in Hin. exact Hin.
  - destruct (serve_analyze_text_state utcnow auth text date w)
      as [Hw|(token & user & -> & Hgate & Hw)]; rewrite Hw in Hin;
      [contradiction|].
    exists token, user. split; [left; eauto|]. split; [exact Hgate|].
    split; [exact (Hsub token user Hgate)|].
    exact (Hrow _ user Hin (proj2 (process_entry_logic_tables text date user w))).
  - destruct (serve_analyze_audio_state utcnow auth disk upload date w)
      as [Hw|(token & user & -> & Hgate & Hw)]; rewrite Hw in Hin;
      [contradiction|].
    exists token, user. split; [right; eauto|]. split; [exact Hgate|].
    split; [exact (Hsub token user Hgate)|].
    exact (Hrow _ user Hin (proj2 (analyze_audio_tables disk upload date user w))).
  - exfalso. apply Hnew. unfold serve in Hin.
    destruct (serve_secured_state utcnow auth get_history History w)
      as [Hw|(token & user & _ & _ & Hw)]; rewrite Hw in Hin; exact Hin.
Qed.

(** X16: Accounts are created by the signup route alone, and the token and
    history routes are read-only: they leave the whole state as it was. *)
Theorem only_signup_changes_accounts (utcnow : Z) (request : Request)
  (w : World) :
  (forall user_data, request <> PostSignup user_data) ->
  users (snd (serve utcnow request w)) = users w
  /\ (forall name password,
        request = PostToken name password -> snd (serve utcnow request w) = w)
  /\ (forall authorization,
        request = GetHistory authorization -> snd (serve utcnow request w) = w).
Proof.
  intros Hnot.
  destruct request as [ud|name pw|auth text date|auth disk upload date|auth].
  - destruct (Hnot ud eq_refl).
  - pose proof (serve_token_state utcnow name pw w) as H.
    split; [rewrite H; reflexivity|].
    split; intros; (exact H || discriminate).
  - split; [|split; intros; discriminate].
    destruct (serve_analyze_text_state utcnow auth text date w)
      as [->|(token & user & _ & _ & ->)]; [reflexivity|].
    exact (proj1 (process_entry_logic_tables text date user w)).
  - split; [|split; intros; discriminate].
    destruct (serve_analyze_audio_state utcnow auth disk upload date w)
      as [->|(token & user & _ & _ & ->)]; [reflexivity|].
    exact (proj1 (analyze_audio_tables disk upload date user w)).
  - assert (H : snd (serve utcnow (GetHistory auth) w) = w).
    { unfold serve.
      destruct (serve_secured_state utcnow auth get_history History w)
        as [->|(token & user & _ & _ & ->)]; reflexivity. }
    split; [rewrite H; reflexivity|].
    split; intros; (exact H || discriminate).
Qed.


End ServerMore.

(** ** The suffix of the temporary file *)

Lemma get_beyond_length (s : string) (k : nat) :
  (String.length s <= k)%nat -> String.get k s = None.
Proof.
  revert k. induction s as [|c s IH]; intros k Hk; [destruct k; reflexivity|].
  destruct k as [|k]; simpl in *; [lia|]. apply IH. lia.
Qed.

Lemma get_within_length (s : string) (k : nat) (c : ascii) :
  String.get k s = Some c -> (k < String.length s)%nat.
Proof.
  intros H. destruct (Nat.lt_ge_cases k (String.length s)) as [Hlt|Hge];
    [exact Hlt|]. rewrite get_beyond_length in H by exact Hge. discriminate.
Qed.

(** [rfind] gives the last position of the character, or the default. *)
Lemma rfind_from_spec (c : ascii) (s : string) : forall i last,
  (rfind_from c s i last = last /\ forall k, String.get k s <> Some c)
  \/ exists j : nat,
       rfind_from c s i last = i + Z.of_nat j
       /\ String.get j s = Some c
       /\ forall k, (j < k)%nat -> String.get k s <> Some c.
Proof.
  induction s as [|d s IH]; intros i last; simpl.
  - left. split; [reflexivity|]. intros k. destruct k; discriminate.
  - destruct (IH (i + 1) (if Ascii.eqb d c then i else last))
      as [[Hr Hnone]|(j & Hr & Hj & Hafter)].
    + destruct (Ascii.eqb_spec d c) as [->|Hne].
      * right. exists 0%nat. rewrite Hr. split; [lia|]. split; [reflexivity|].
        intros k Hk. destruct k as [|k]; [lia|]. apply Hnone.
      * left. split; [exact Hr|]. intros k. destruct k as [|k]; [|apply Hnone].
        intros H. inversion H. contradiction.
    + right. exists (S j). rewrite Hr. split; [lia|]. split; [exact Hj|].
      intros k Hk. destruct k as [|k]; [lia|]. apply Hafter. lia.
Qed.

(** A non-empty result of [splitext] is a dot followed by characters none
    of which is a dot or a slash. *)
Lemma splitext_ext_shape (p : string) :
  splitext_ext p <> "" ->
  String.get 0 (splitext_ext p) = Some "."%char
  /\ (forall k, (0 < k)%nat -> String.get k (splitext_ext p) <> Some "."%char)
  /\ (forall k, String.get k (splitext_ext p) <> Some "/"%char).
Proof.
  unfold splitext_ext, rfind. cbv zeta.
  assert (Hshape : forall jd : nat,
    String.get jd p = Some "."%char ->
    (forall k, (jd < k)%nat -> String.get k p <> Some "."%char) ->
    (forall k, (jd < k)%nat -> String.get k p <> Some "/"%char) ->
    String.get 0 (str_from p (0 + Z.of_nat jd)) = Some "."%char
    /\ (forall k, (0 < k)%nat ->
          String.get k (str_from p (0 + Z.of_nat jd)) <> Some "."%char)
    /\ (forall k, String.get k (str_from p (0 + Z.of_nat jd)) <> Some "/"%char)).
  { intros jd Hjd Hdots Hseps.
    pose proof (get_within_length p jd _ Hjd) as Hlen.
    unfold str_from. replace (Z.to_nat (0 + Z.of_nat jd)) with jd by lia.
    split; [|split].
    - rewrite substring_correct1 by lia. exact Hjd.
    - intros k Hk.
      destruct (Nat.lt_ge_cases k (String.length p - jd)) as [Hin|Hout].
      + rewrite substring_correct1 by exact Hin. apply Hdots. lia.
      + rewrite substring_correct2 by exact Hout. discriminate.
    - intros k.
      destruct (Nat.lt_ge_cases k (String.length p - jd)) as [Hin|Hout].
      + rewrite substring_correct1 by exact Hin.
        destruct k as [|k]; [simpl; rewrite Hjd; discriminate|].
        apply Hseps. lia.
      + rewrite substring_correct2 by exact Hout. discriminate. }
  destruct (rfind_from_spec "/" p 0 (-1)) as [[Hs Hnos]|(js & Hs & _ & Hafters)];
    destruct (rfind_from_spec "." p 0 (-1)) as [[Hd Hnod]|(jd & Hd & Hjd & Hafterd)];
    rewrite Hs, Hd;
    match goal with
    | |- context [?a <? ?b] => destruct (Z.ltb_spec a b) as [Hlt|Hge]
    end;
    try (intros H; now destruct H); try (exfalso; lia);
    (destruct (has_non_dot _ _ _); [|intros H; now destruct H]); intros _;
    apply Hshape; try assumption.
  - intros k _. apply Hnos.
  - intros k Hk. apply Hafters. lia.
Qed.

(** X17: Whatever file name the client sends, the suffix the temporary file is
    created with is a dot followed by characters none of which is a dot or
    a path separator, ".webm" when the name has no extension: the name of
    the upload cannot steer the temporary file out of its directory. *)
Theorem upload_ext_is_a_plain_extension (upload : UploadFile) :
  String.get 0 (upload_ext upload) = Some "."%char
  /\ (forall k, (0 < k)%nat -> String.get k (upload_ext upload) <> Some "."%char)
  /\ (forall k, String.get k (upload_ext upload) <> Some "/"%char)
  /\ (filename upload = None \/ filename upload = Some "" ->
      upload_ext upload = ".webm").
Proof.
  assert (Hwebm : String.get 0 ".webm" = Some "."%char
                  /\ (forall k, (0 < k)%nat ->
                                String.get k ".webm" <> Some "."%char)
                  /\ (forall k, String.get k ".webm" <> Some "/"%char)).
  { split; [reflexivity|]. split.
    - intros k Hk. do 6 (destruct k as [|k]; [try lia; discriminate|]).
      discriminate.
    - intros k. do 6 (destruct k as [|k]; [discriminate|]). discriminate. }
  split; [|split; [|split]].
  4:{ intros [H|H]; unfold upload_ext; rewrite H; reflexivity. }
  all: unfold upload_ext, str_or;
    match goal with
    | |- context [truthy (splitext_ext ?p)] =>
        destruct (splitext_ext p) eqn:E; cbn [truthy];
        [apply Hwebm
        |rewrite <- E;
         apply (splitext_ext_shape p); rewrite E; discriminate]
    end.
Qed.

(** ** The further properties on concrete inputs *)

(** A forged token, here one signed under another key, is turned away. *)
Lemma token_gate_outcomes_witness :
  fst (get_current_user (C := Mock.collaborators) 1704067200000000
         (jwt_encode (C := Mock.collaborators)
            (mkClaims (Some "alice") (Some 1704153600)) "not the secret")
         Mock.registered)
  = Raise credentials_exception.
Proof.
  destruct (token_gate_outcomes (C := Mock.collaborators) 1704067200000000
              (jwt_encode (C := Mock.collaborators)
                 (mkClaims (Some "alice") (Some 1704153600)) "not the secret")
              Mock.registered) as (_ & _ & H & _).
  apply H. vm_compute. discriminate.
Defined.

Lemma refused_token_stays_refused_witness :
  fst (get_current_user (C := Mock.collaborators) 1704153601000000
         (create_access_token (C := Mock.collaborators)
            (mkClaims (Some "alice") None) 1704067200250000) Mock.registered)
  = Raise credentials_exception
  /\ fst (get_current_user (C := Mock.collaborators) 1735689600000000
            (create_access_token (C := Mock.collaborators)
               (mkClaims (Some "alice") None) 1704067200250000) Mock.registered)
     = Raise credentials_exception.
Proof.
  assert (H : fst (get_current_user (C := Mock.collaborators) 1704153601000000
                     (create_access_token (C := Mock.collaborators)
                        (mkClaims (Some "alice") None) 1704067200250000)
                     Mock.registered)
              = Raise credentials_exception) by reflexivity.
  split; [exact H|].
  apply (refused_token_stays_refused (C := Mock.collaborators)
           1704153601000000 1735689600000000); [lia|exact H].
Defined.

Lemma login_outcomes_witness :
  fst (login (C := Mock.collaborators) 1704067200250000 "carol" "anything"
         Mock.registered)
  = Raise (HTTPException 400 "User not found, please create a new account")
  /\ fst (login (C := Mock.collaborators) 1704067200250000 "alice" "looking-glass"
            Mock.registered)
     = Raise (HTTPException 400 "Incorrect password").
Proof.
  destruct (login_outcomes (C := Mock.collaborators) 1704067200250000 "carol"
              "anything" Mock.registered) as (_ & [H _] & _).
  destruct (login_outcomes (C := Mock.collaborators) 1704067200250000 "alice"
              "looking-glass" Mock.registered) as (_ & _ & H').
  split.
  - apply H. intros u [<-|[<-|[]]]; discriminate.
  - apply (H' Mock.alice); reflexivity.
Defined.

Lemma signup_then_login_witness :
  exists w' tok account,
    signup (C := Mock.collaborators)
      (UserCreate.mk "carol" "carol@example.org" "s3cret") Mock.registered
    = (Return "User created successfully", w')
    /\ get_current_user (C := Mock.collaborators) 1704067200250000 tok w'
       = (Return account, w')
    /\ User.username account = "carol".
Proof.
  destruct (signup_then_login (C := Mock.collaborators)
              (UserCreate.mk "carol" "carol@example.org" "s3cret")
              1704067200250000 Mock.registered)
    as (w' & tok & account & H1 & _ & H3 & _ & H5 & _).
  - intros x [<-|[<-|[]]]; split; discriminate.
  - reflexivity.
  - exists w', tok, account. auto.
Defined.


Lemma early_date_is_stored_then_fails_witness :
  exists row,
    process_entry_logic (C := Mock.collaborators) "I am so angry today"
      "0001-03-31" Mock.alice Mock.registered
    = (Raise (OverflowError "date value out of range"),
       mkWorld (users Mock.registered) [row] [])
    /\ JournalEntry.date row = Date.mk 1 3 31.
Proof.
  destruct (early_date_is_stored_then_fails (C := Mock.collaborators)
              "I am so angry today" "0001-03-31" (Date.mk 1 3 31) Mock.alice
              Mock.registered) as (row & Hrun & Hd & _).
  - vm_compute. discriminate.
  - reflexivity.
  - vm_compute. discriminate.
  - exists row. split; [exact Hrun|exact Hd].
Defined.

Lemma stored_row_well_formed_witness :
  In "anger" (map snd EMOTION_LABELS)
  /\ Date.valid 2024 3 10 = true
  /\ In (87 # 100)%Q (Mock.one_hot 2).
Proof.
  destruct (stored_row_well_formed (C := Mock.collaborators)
              "I am so angry today" "2024-03-10" Mock.alice Mock.registered
              (JournalEntry.mk 1 1 (Date.mk 2024 3 10) "gAAAAAyadot yrgna os ma I"
                 "anger" (87 # 100))
              (Return (mkResponse "anger" (8700 # 100)
                         "Try the physiological sigh: 2 short inhales, 1 long exhale to reset autonomic nervous system."
                         1 None None)))
    as (H1 & H2 & H3 & _).
  - reflexivity.
  - split; [exact H1|]. split; [exact H2|exact H3].
Defined.

Lemma analyze_then_history_witness :
  exists resp w' after,
    analyze_text (C := Mock.collaborators) "quiet morning" "2024-04-01"
      Mock.alice Mock.journals = (Return resp, w')
    /\ fst (get_history Mock.alice w') = Return after
    /\ In (Date.mk 2024 4 1, emotion resp) after
    /\ fst (get_history Mock.bob w') = fst (get_history Mock.bob Mock.journals).
Proof.
  destruct (analyze_text (C := Mock.collaborators) "quiet morning" "2024-04-01"
              Mock.alice Mock.journals) as [[resp|e] w'] eqn:Hrun;
    [|vm_compute in Hrun; discriminate].
  destruct (analyze_then_history (C := Mock.collaborators) "quiet morning"
              "2024-04-01" Mock.alice Mock.journals w' resp Hrun)
    as (d & before & after & Hd & _ & Hafter & Hin & _ & Hiso).
  exists resp, w', after. split; [reflexivity|]. split; [exact Hafter|].
  split.
  - vm_compute in Hd. inversion Hd; subst d. exact Hin.
  - apply Hiso. vm_compute. discriminate.
Defined.


Lemma analyze_audio_success_witness :
  exists resp w',
    analyze_audio (C := Mock.collaborators) Mock.disk_ok
      (mkUpload (Some "memo.ogg") "  dear diary ") "2024-01-15" Mock.alice
      Mock.registered = (Return resp, w')
    /\ transcription resp = Some "dear diary"
    /\ List.length (entries w') = 1%nat.
Proof.
  destruct (analyze_audio (C := Mock.collaborators) Mock.disk_ok
              (mkUpload (Some "memo.ogg") "  dear diary ") "2024-01-15"
              Mock.alice Mock.registered) as [[resp|e] w'] eqn:Hrun;
    [|vm_compute in Hrun; discriminate].
  destruct (analyze_audio_success (C := Mock.collaborators) Mock.disk_ok
              (mkUpload (Some "memo.ogg") "  dear diary ") "2024-01-15"
              Mock.alice Mock.registered w' resp Hrun)
    as (result & t & row & Hres & Ht & _ & Htr & _ & _ & Hent & _).
  exists resp, w'. split; [reflexivity|]. split.
  - rewrite Htr, Ht. vm_compute in Hres. inversion Hres. reflexivity.
  - rewrite Hent. reflexivity.
Defined.

Lemma temp_file_cleanup_witness :
  files (snd (analyze_audio (C := Mock.collaborators) Mock.disk_ok
                (mkUpload (Some "memo.ogg") "dear diary") "2024-13-01" Mock.alice
                Mock.registered)) = []
  /\ fst (analyze_audio (C := Mock.collaborators)
            (mkDisk ["a1b2c3d4"] None (Some "[Errno 13] Permission denied"))
            (mkUpload (Some "memo.ogg") "dear diary") "2024-13-01" Mock.alice
            Mock.registered)
     = fst (analyze_audio (C := Mock.collaborators) Mock.disk_ok
              (mkUpload (Some "memo.ogg") "dear diary") "2024-13-01" Mock.alice
              Mock.registered).
Proof.
  split.
  - apply (temp_file_cleanup (C := Mock.collaborators) Mock.disk_ok
             (mkUpload (Some "memo.ogg") "dear diary") "2024-13-01" Mock.alice
             Mock.registered "/tmp/tmpa1b2c3d4.ogg"); reflexivity.
  - apply (temp_file_cleanup (C := Mock.collaborators)
             (mkDisk ["a1b2c3d4"] None (Some "[Errno 13] Permission denied"))
             (mkUpload (Some "memo.ogg") "dear diary") "2024-13-01" Mock.alice
             Mock.registered "/tmp/tmpa1b2c3d4.ogg"); reflexivity.
Defined.

Lemma schema_is_invariant_witness :
  schema_ok Mock.journals
  /\ schema_ok (snd (serve (C := Mock.collaborators) 1704067200250000
                       (PostSignup (UserCreate.mk "bob" "robert@example.org" "pw"))
                       Mock.journals)).
Proof.
  destruct (schema_is_invariant (C := Mock.collaborators)) as [Hstep Hreach].
  assert (H : schema_ok Mock.journals).
  { exact (Hreach
             [ (0, PostSignup (UserCreate.mk "alice" "alice@example.org" "wonderland"));
               (0, PostSignup (UserCreate.mk "bob" "bob@example.org" "builder"));
               (0, PostToken "alice" "wonderland");
               (0, PostAnalyzeText
                     (Some (create_access_token (C := Mock.collaborators)
                              (mkClaims (Some "alice") None) 0))
                     "I am so angry today" "2024-03-10");
               (0, PostAnalyzeText
                     (Some (create_access_token (C := Mock.collaborators)
                              (mkClaims (Some "bob") None) 0))
                     "what a day" "2024-01-05");
               (0, PostAnalyzeText
                     (Some (create_access_token (C := Mock.collaborators)
                              (mkClaims (Some "alice") None) 0))
                     "quiet evening" "2024-01-15") ] []). }
  split; [exact H|]. apply Hstep, H.
Defined.

Lemma refused_request_changes_nothing_witness :
  (exists detail,
     serve (C := Mock.collaborators) 1704067200250000
       (PostAnalyzeAudio None Mock.disk_ok (mkUpload (Some "memo.ogg") "dear diary")
          "2024-01-15") Mock.journals
     = (Raise (HTTPException 401 detail), Mock.journals))
  /\ (exists detail,
        serve (C := Mock.collaborators) 1704067200250000
          (GetHistory
             (Some (jwt_encode (C := Mock.collaborators)
                      (mkClaims (Some "alice") (Some 1704153600)) "not the secret")))
          Mock.journals
        = (Raise (HTTPException 401 detail), Mock.journals)).
Proof.
  split.
  - destruct (refused_request_changes_nothing (C := Mock.collaborators)
                1704067200250000 None Mock.journals (or_introl eq_refl))
      as (_ & H & _).
    apply H.
  - destruct (refused_request_changes_nothing (C := Mock.collaborators)
                1704067200250000
                (Some (jwt_encode (C := Mock.collaborators)
                         (mkClaims (Some "alice") (Some 1704153600))
                         "not the secret"))
                Mock.journals) as (_ & _ & H).
    + right. eexists. split; reflexivity.
    + exact H.
Defined.

Lemma served_rows_belong_to_subject_witness :
  exists e,
    In e (entries (snd (serve (C := Mock.collaborators) 0
                          (PostAnalyzeText
                             (Some (create_access_token (C := Mock.collaborators)
                                      (mkClaims (Some "bob") None) 0))
                             "what a day" "2024-02-01") Mock.journals)))
    /\ ~ In e (entries Mock.journals)
    /\ JournalEntry.user_id e = 2.
Proof.
  set (request := PostAnalyzeText
                    (Some (create_access_token (C := Mock.collaborators)
                             (mkClaims (Some "bob") None) 0))
                    "what a day" "2024-02-01").
  set (e := JournalEntry.mk 4 2 (Date.mk 2024 2 1) "gAAAAAyad a tahw"
              "excitement" (9 # 10)).
  assert (Hin : In e (entries (snd (serve (C := Mock.collaborators) 0 request
                                      Mock.journals)))).
  { vm_compute. do 3 right. left. reflexivity. }
  assert (Hnew : ~ In e (entries Mock.journals)).
  { vm_compute. intros [H|[H|[H|[]]]]; discriminate. }
  exists e. split; [exact Hin|]. split; [exact Hnew|].
  destruct (served_rows_belong_to_subject (C := Mock.collaborators) 0 request
              Mock.journals e Hin Hnew)
    as (token & user & _ & Hgate & _ & Howner).
  reflexivity.
Defined.

Lemma only_signup_changes_accounts_witness :
  users (snd (serve (C := Mock.collaborators) 0
                (PostAnalyzeText
                   (Some (create_access_token (C := Mock.collaborators)
                            (mkClaims (Some "bob") None) 0))
                   "what a day" "2024-02-01") Mock.journals))
  = users Mock.journals.
Proof.
  apply (only_signup_changes_accounts (C := Mock.collaborators)).
  intros user_data. discriminate.
Defined.

(** Uploads named to climb out of the directory, or with several dots. *)
Lemma upload_ext_is_a_plain_extension_witness :
  upload_ext (mkUpload (Some "../../etc/passwd") "") = ".webm"
  /\ upload_ext (mkUpload (Some "voice.note.m4a") "") = ".m4a"
  /\ forall k, String.get k (upload_ext (mkUpload (Some "a.b/c.d") ""))
               <> Some "/"%char.
Proof.
  split; [reflexivity|]. split; [reflexivity|].
  exact (proj1 (proj2 (proj2 (upload_ext_is_a_plain_extension
                                (mkUpload (Some "a.b/c.d") ""))))).
Defined.
